(** * OpenWebRX feature detection ([owrx/feature.py])

    A shallow embedding of the requirement evaluator of OpenWebRX: the
    time-bounded [FeatureCache], the catalog [FeatureDetector.features],
    the dispatch [is_available] / [has_requirements] / [has_requirement],
    and the probes that spawn subprocesses ([command_is_runnable],
    [_check_connector], [_has_soapy_driver], [_has_wsjtx_version]).

    Python code with effects is written in a state-and-exception monad [M]
    over a [World]: the shared cache, the host the program runs on, and the
    trace of what the program did to that host. *)

From Stdlib Require Import Ascii String ZArith Lia.
From stdpp Require Import gmap strings list fin_maps.

Local Open Scope string_scope.

(** ** Exceptions and results *)

(** The exception classes the module raises, catches or lets through.  A
    constructor stands for the class and its subclasses, as an [except]
    clause sees them. *)
Inductive exn : Type :=
| UnknownFeatureException (msg : string)
| FileNotFoundError
| TimeoutExpired
| ImportError
| ConnectionError
| RuntimeError
| TypeError
| KeyError
| OtherError (cls : string).

(** What running a piece of Python gives: a value, a raised exception, or
    [Unfinished] when the [while True] loop of [command_is_runnable] was
    still going round after the budget of iterations it was run with. *)
Inductive result (A : Type) : Type :=
| Ok (a : A)
| Raise (e : exn)
| Unfinished.
Arguments Ok {A} a.
Arguments Raise {A} e.
Arguments Unfinished {A}.

(** ** The host: processes, clock, installed modules, configuration *)

(** [subprocess.DEVNULL], [subprocess.PIPE], or the argument left out. *)
Inductive Stdio : Type := Inherited | DEVNULL | PIPE.

(** The arguments of one [subprocess.Popen] call.  [sp_env = None] and
    [sp_cwd = None] are the arguments left out: the child inherits the
    caller's environment and working directory. *)
Record SpawnRequest : Type := {
  sp_args : list string;
  sp_stdin : Stdio;
  sp_stdout : Stdio;
  sp_stderr : Stdio;
  sp_cwd : option string;
  sp_env : option (gmap string string);
}.

(** A started process, as the program can observe it: the lines it writes
    to its standard output (raw, each with its line end), and the outcome
    of [process.wait(timeout)] when [n] earlier waits have timed out:
    [Some rc] is the exit code, [None] is [subprocess.TimeoutExpired]. *)
Record Process : Type := {
  proc_args : list string;
  proc_stdout : list string;
  proc_wait : nat -> Z -> option Z;
}.

(** The host answers every interaction from an oracle indexed by the number
    of interactions so far, so that it may answer differently each time (a
    clock that advances, a command that is there at one moment and gone the
    next).  [datetime] values are microseconds on the wall clock. *)
Record Host : Type := {
  events : nat;
  clock_at : nat -> Z;
  popen_at : nat -> SpawnRequest -> exn + Process;
  environ_at : nat -> gmap string string;
  tmp_dir_at : nat -> string;
  import_at : nat -> string -> string -> option string;
  config_at : nat -> gmap string string;
  hasAmbe_at : nat -> string -> exn + bool;
}.

Definition tick (h : Host) : Host :=
  {| events := S (events h);
     clock_at := clock_at h;
     popen_at := popen_at h;
     environ_at := environ_at h;
     tmp_dir_at := tmp_dir_at h;
     import_at := import_at h;
     config_at := config_at h;
     hasAmbe_at := hasAmbe_at h |}.

Inductive LogLevel : Type := WARNING | ERROR.

(** What the program did, in order.  [EvHasRequirement] and [EvMethod] are
    ghost events: entering [has_requirement], and [has_requirement] calling
    the detection method it resolved. *)
Inductive Event : Type :=
| EvHasRequirement (requirement : string)
| EvMethod (methodname : string)
| EvLog (level : LogLevel) (msg : string)
| EvPopen (req : SpawnRequest)
| EvKill (args : list string).

(** ** The cache and the world *)

(** One entry of [FeatureCache.cache]: [{"value": ..., "valid_to": ...}]. *)
Record CacheEntry : Type := {
  value : bool;
  valid_to : Z;
}.

(** [FeatureCache.sharedInstance] is created empty on first use and is the
    only instance the module uses: it is the [cache] of the world. *)
Record World : Type := {
  cache : gmap string CacheEntry;
  host : Host;
  trace : list Event;
}.

Definition set_cache (c : gmap string CacheEntry) (w : World) : World :=
  {| cache := c; host := host w; trace := trace w |}.
Definition set_host (h : Host) (w : World) : World :=
  {| cache := cache w; host := h; trace := trace w |}.
Definition record_event (ev : Event) (w : World) : World :=
  {| cache := cache w; host := host w; trace := trace w ++ [ev] |}.

(** The reading [datetime.now()] gives in world [w]. *)
Definition now (w : World) : Z := clock_at (host w) (events (host w)).

(** ** The monad *)

Definition M (A : Type) : Type := World -> result A * World.

Definition ret {A} (a : A) : M A := fun w => (Ok a, w).
Definition raise {A} (e : exn) : M A := fun w => (Raise e, w).
Definition unfinished {A} : M A := fun w => (Unfinished, w).

Definition bind {A B} (m : M A) (k : A -> M B) : M B :=
  fun w =>
    match m w with
    | (Ok a, w') => k a w'
    | (Raise e, w') => (Raise e, w')
    | (Unfinished, w') => (Unfinished, w')
    end.

Notation "'let!' x ':=' c1 'in' c2" := (bind c1 (fun x => c2))
  (at level 10, x name, c1 at level 100, c2 at level 200).
Notation "c1 ;; c2" := (bind c1 (fun _ => c2))
  (at level 100, right associativity).

(** [try: body except <handler>]: the handler says which exceptions it
    catches; the others, and [Unfinished], pass through. *)
Definition try_except {A} (body : M A) (handler : exn -> option (M A)) : M A :=
  fun w =>
    match body w with
    | (Raise e, w') =>
        match handler e with
        | Some h => h w'
        | None => (Raise e, w')
        end
    | r => r
    end.

Definition lift {A} (r : exn + A) : M A :=
  match r with
  | inl e => raise e
  | inr a => ret a
  end.

Definition emit (ev : Event) : M unit := fun w => (Ok tt, record_event ev w).

(** One interaction with the host: read the oracle, advance the count. *)
Definition ask {A} (f : Host -> nat -> A) : M A :=
  fun w => (Ok (f (host w) (events (host w))), set_host (tick (host w)) w).

(** ** Primitives of the Python runtime and of the rest of OpenWebRX *)

Definition datetime_now : M Z := ask clock_at.
Definition os_environ_copy : M (gmap string string) := ask environ_at.
Definition get_temporary_directory : M string := ask tmp_dir_at.
Definition Config_get : M (gmap string string) := ask config_at.

(** [from module import name]; a module or name that is not there raises
    [ImportError]. *)
Definition import_from (module name : string) : M string :=
  let! v := ask (fun h n => import_at h n module name) in
  match v with
  | Some s => ret s
  | None => raise ImportError
  end.

Definition MbeSynthesizer_hasAmbe (server : string) : M bool :=
  let! r := ask (fun h n => hasAmbe_at h n server) in lift r.

Definition subprocess_Popen (req : SpawnRequest) : M Process :=
  emit (EvPopen req) ;;
  let! r := ask (fun h n => popen_at h n req) in lift r.

(** [process.wait(timeout)] after [n] waits that timed out. *)
Definition Popen_wait (process : Process) (n : nat) (timeout : Z) : M Z :=
  match proc_wait process n timeout with
  | Some rc => ret rc
  | None => raise TimeoutExpired
  end.

Definition Popen_kill (process : Process) : M unit :=
  emit (EvKill (proc_args process)).

Definition logger_warning (msg : string) : M unit := emit (EvLog WARNING msg).
Definition logger_error (msg : string) : M unit := emit (EvLog ERROR msg).
(** [logger.exception] logs at level ERROR. *)
Definition logger_exception (msg : string) : M unit := emit (EvLog ERROR msg).

(** Library functions the module calls and this development does not look
    into: [shlex.split], [bytes.decode], [str.strip], and the [>=] of
    [distutils.version.LooseVersion] and [StrictVersion] (on the version
    strings the objects were built from). *)
Class PyLib : Type := {
  shlex_split : string -> exn + list string;
  bytes_decode : string -> exn + string;
  str_strip : string -> string;
  LooseVersion_ge : string -> string -> exn + bool;
  StrictVersion_ge : string -> string -> exn + bool;
}.

(** ** FeatureCache *)

(** [timedelta(hours=2)], in microseconds. *)
Definition cachetime : Z := 2 * 3600 * 1000000.

Definition FeatureCache_has (feature : string) : M bool :=
  fun w =>
    match cache w !! feature with
    | None => ret false w
    | Some entry =>
        (let! now := datetime_now in
         if (valid_to entry <? now)%Z then ret false else ret true) w
    end.

Definition FeatureCache_get (feature : string) : M bool :=
  fun w =>
    match cache w !! feature with
    | Some entry => ret (value entry) w
    | None => raise KeyError w
    end.

Definition FeatureCache_set (feature : string) (value : bool) : M unit :=
  let! now := datetime_now in
  fun w =>
    (Ok tt,
     set_cache (<[feature := {| value := value; valid_to := (now + cachetime)%Z |}]> (cache w)) w).

(** ** The catalog *)

(** [FeatureDetector.features], in the order the dict literal declares it. *)
Definition features : list (string * list string) :=
  [ ("core", ["csdr"]);
    ("rtl_sdr", ["rtl_connector"]);
    ("rtl_sdr_soapy", ["soapy_connector"; "soapy_rtl_sdr"]);
    ("rtl_tcp", ["rtl_tcp_connector"]);
    ("sdrplay", ["soapy_connector"; "soapy_sdrplay"]);
    ("hackrf", ["soapy_connector"; "soapy_hackrf"]);
    ("perseussdr", ["perseustest"; "nmux"]);
    ("airspy", ["soapy_connector"; "soapy_airspy"]);
    ("airspyhf", ["soapy_connector"; "soapy_airspyhf"]);
    ("afedri", ["soapy_connector"; "soapy_afedri"]);
    ("lime_sdr", ["soapy_connector"; "soapy_lime_sdr"]);
    ("fifi_sdr", ["alsa"; "rockprog"; "nmux"]);
    ("pluto_sdr", ["soapy_connector"; "soapy_pluto_sdr"]);
    ("soapy_remote", ["soapy_connector"; "soapy_remote"]);
    ("uhd", ["soapy_connector"; "soapy_uhd"]);
    ("radioberry", ["soapy_connector"; "soapy_radioberry"]);
    ("fcdpp", ["soapy_connector"; "soapy_fcdpp"]);
    ("bladerf", ["soapy_connector"; "soapy_bladerf"]);
    ("sddc", ["sddc_connector"]);
    ("sddc_soapy", ["soapy_connector"; "soapy_sddc"]);
    ("hpsdr", ["hpsdr_connector"]);
    ("runds", ["runds_connector"]);
    ("digital_voice_digiham", ["digiham"; "codecserver_ambe"]);
    ("digital_voice_freedv", ["freedv_rx"]);
    ("digital_voice_m17", ["m17_demod"]);
    ("wsjt-x", ["wsjtx"]);
    ("wsjt-x-2-3", ["wsjtx_2_3"]);
    ("wsjt-x-2-4", ["wsjtx_2_4"]);
    ("msk144", ["msk144decoder"]);
    ("packet", ["direwolf"]);
    ("pocsag", ["digiham"]);
    ("js8call", ["js8"; "js8py"]);
    ("drm", ["dream"]);
    ("dump1090", ["dump1090"]);
    ("ism", ["rtl_433"]);
    ("dumphfdl", ["dumphfdl"]);
    ("dumpvdl2", ["dumpvdl2"]);
    ("redsea", ["redsea"]);
    ("dab", ["csdreti"; "dablin"]);
    ("mqtt", ["paho_mqtt"]) ].

(** Lookup in a dict given as its items (keys are distinct). *)
Fixpoint dict_get {A} (d : list (string * A)) (key : string) : option A :=
  match d with
  | [] => None
  | (k, v) :: d' => if String.eqb k key then Some v else dict_get d' key
  end.

(** ** Text helpers *)

Definition dquote : string := String "034"%char EmptyString.
Definition newline : string := String "010"%char EmptyString.

(** The warning [command_is_runnable] logs for [command]:
    ["feature check command \"%s\" did not return after 10 seconds!"]
    with the command filled in. *)
Definition timeout_warning (command : string) : string :=
  "feature check command " +:+ dquote +:+ command +:+ dquote
  +:+ " did not return after 10 seconds!".

(** [s] without the prefix [p], when it starts with it. *)
Fixpoint strip_prefix (p s : string) : option string :=
  match p, s with
  | EmptyString, _ => Some s
  | String c p', String d s' => if Ascii.eqb c d then strip_prefix p' s' else None
  | String _ _, EmptyString => None
  end.

(** The text before the first line feed, and the rest from it on. *)
Fixpoint until_newline (s : string) : string * string :=
  match s with
  | EmptyString => (EmptyString, EmptyString)
  | String c s' =>
      if Ascii.eqb c "010"%char then (EmptyString, s)
      else let (a, b) := until_newline s' in (String c a, b)
  end.

(** [regex.match(line).group(1)] for the two patterns of the module: a
    literal text at the start of the line, then one group of any characters
    other than line feed, up to the end of the string or to a line feed that
    ends the string.  [None] when the pattern does not match. *)
Definition re_match_literal_rest (literal line : string) : option string :=
  match strip_prefix literal line with
  | None => None
  | Some rest =>
      let (group, tail) := until_newline rest in
      if String.eqb tail EmptyString || String.eqb tail newline then Some group else None
  end.

(** [process.stdout.readline()]: the first line, or the empty bytes at end
    of file. *)
Definition stdout_readline (process : Process) : string :=
  match proc_stdout process with
  | [] => EmptyString
  | line :: _ => line
  end.

Fixpoint mapM {A B} (f : A -> M B) (l : list A) : M (list B) :=
  match l with
  | [] => ret []
  | a :: l' =>
      let! b := f a in
      let! bs := mapM f l' in
      ret (b :: bs)
  end.

(** [except FileNotFoundError: return False] *)
Definition except_FileNotFoundError (e : exn) : option (M bool) :=
  match e with
  | FileNotFoundError => Some (ret false)
  | _ => None
  end.

(** [except ImportError: return False] *)
Definition except_ImportError (e : exn) : option (M bool) :=
  match e with
  | ImportError => Some (ret false)
  | _ => None
  end.

(** ** FeatureDetector *)

Section FeatureDetector.

Context {lib : PyLib}.

(** How many times the [while True] loop of [command_is_runnable] may go
    round before the run is given up as [Unfinished]. *)
Variable fuel : nat.

(** The loop of [command_is_runnable], after [n] waits that timed out:
[[
    while True:
        try:
            rc = process.wait(10)
            break
        except subprocess.TimeoutExpired:
            logger.warning("feature check command \"%s\" did not return after 10 seconds!", command)
            process.kill()
]] *)
Fixpoint wait_loop (budget : nat) (command : string) (process : Process) (n : nat) : M Z :=
  match budget with
  | O => unfinished
  | S budget' =>
      let! rc :=
        try_except
          (let! rc := Popen_wait process n 10 in ret (Some rc))
          (fun e =>
             match e with
             | TimeoutExpired =>
                 Some (logger_warning (timeout_warning command) ;;
                       Popen_kill process ;;
                       ret None)
             | _ => None
             end) in
      match rc with
      | Some rc => ret rc
      | None => wait_loop budget' command process (S n)
      end
  end.

Definition command_is_runnable (command : string) (expected_result : option Z) : M bool :=
  let! tmp_dir := get_temporary_directory in
  let! cmd := lift (shlex_split command) in
  let! env := os_environ_copy in
  (* prevent X11 programs from opening windows if called from a GUI shell *)
  let env := delete "DISPLAY" env in
  try_except
    (let! process :=
       subprocess_Popen
         {| sp_args := cmd;
            sp_stdin := DEVNULL;
            sp_stdout := DEVNULL;
            sp_stderr := DEVNULL;
            sp_cwd := Some tmp_dir;
            sp_env := Some env |} in
     let! rc := wait_loop fuel command process 0 in
     match expected_result with
     | None => ret (negb (rc =? 32512)%Z)
     | Some expected => ret (rc =? expected)%Z
     end)
    except_FileNotFoundError.

(** [required_version] is the text the [LooseVersion] is built from. *)
Definition _check_connector (command required_version : string) : M bool :=
  try_except
    (let! process :=
       subprocess_Popen
         {| sp_args := [command; "--version"];
            sp_stdin := Inherited;
            sp_stdout := PIPE;
            sp_stderr := Inherited;
            sp_cwd := None;
            sp_env := None |} in
     let! line := lift (bytes_decode (stdout_readline process)) in
     match re_match_literal_rest (command +:+ " version ") line with
     | None => ret false
     | Some version =>
         Popen_wait process 0 1 ;;
         lift (LooseVersion_ge version required_version)
     end)
    except_FileNotFoundError.

Definition _check_owrx_connector (command : string) : M bool :=
  _check_connector command "0.7".

Definition _has_soapy_driver (driver : string) : M bool :=
  try_except
    (let! process :=
       subprocess_Popen
         {| sp_args := ["soapy_connector"; "--listdrivers"];
            sp_stdin := Inherited;
            sp_stdout := PIPE;
            sp_stderr := DEVNULL;
            sp_cwd := None;
            sp_env := None |} in
     let! drivers :=
       mapM (fun line => let! s := lift (bytes_decode line) in ret (str_strip s))
            (proc_stdout process) in
     Popen_wait process 0 1 ;;
     ret (existsb (String.eqb driver) drivers))
    except_FileNotFoundError.

Definition _has_wsjtx_version (required_version : string) : M bool :=
  try_except
    (let! process :=
       subprocess_Popen
         {| sp_args := ["wsjtx_app_version"; "--version"];
            sp_stdin := Inherited;
            sp_stdout := PIPE;
            sp_stderr := Inherited;
            sp_cwd := None;
            sp_env := None |} in
     let! line := lift (bytes_decode (stdout_readline process)) in
     match re_match_literal_rest "WSJT-X " line with
     | None => ret false
     | Some version =>
         Popen_wait process 0 1 ;;
         lift (LooseVersion_ge version required_version)
     end)
    except_FileNotFoundError.

(** The shape shared by [has_csdr], [has_digiham] and [has_csdreti]: two
    version strings imported from one module, both compared, in order and
    with [and], to the required version. *)
Definition has_module_versions (module name1 name2 required_version : string) : M bool :=
  try_except
    (let! v1 := import_from module name1 in
     let! v2 := import_from module name2 in
     let! ok1 := lift (LooseVersion_ge v1 required_version) in
     if ok1 then lift (LooseVersion_ge v2 required_version) else ret false)
    except_ImportError.

Definition has_csdr : M bool :=
  has_module_versions "pycsdr.modules" "csdr_version" "version" "0.19.0".
Definition has_nmux : M bool := command_is_runnable "nmux --help" None.
Definition has_perseustest : M bool := command_is_runnable "perseustest -h" None.
Definition has_digiham : M bool :=
  has_module_versions "digiham.modules" "digiham_version" "version" "0.6".
Definition has_rtl_connector : M bool := _check_owrx_connector "rtl_connector".
Definition has_rtl_tcp_connector : M bool := _check_owrx_connector "rtl_tcp_connector".
Definition has_soapy_connector : M bool := _check_owrx_connector "soapy_connector".
Definition has_soapy_rtl_sdr : M bool := _has_soapy_driver "rtlsdr".
Definition has_soapy_sdrplay : M bool := _has_soapy_driver "sdrplay".
Definition has_soapy_airspy : M bool := _has_soapy_driver "airspy".
Definition has_soapy_airspyhf : M bool := _has_soapy_driver "airspyhf".
Definition has_soapy_afedri : M bool := _has_soapy_driver "afedri".
Definition has_soapy_lime_sdr : M bool := _has_soapy_driver "lime".
Definition has_soapy_pluto_sdr : M bool := _has_soapy_driver "plutosdr".
Definition has_soapy_remote : M bool := _has_soapy_driver "remote".
Definition has_soapy_uhd : M bool := _has_soapy_driver "uhd".
Definition has_soapy_radioberry : M bool := _has_soapy_driver "radioberry".
Definition has_soapy_hackrf : M bool := _has_soapy_driver "hackrf".
Definition has_soapy_fcdpp : M bool := _has_soapy_driver "fcdpp".
Definition has_soapy_bladerf : M bool := _has_soapy_driver "bladerf".
Definition has_m17_demod : M bool := command_is_runnable "m17-demod" (Some 0%Z).
Definition has_direwolf : M bool := command_is_runnable "direwolf --help" None.

(** [reduce(and_, map(self.command_is_runnable, ["jt9", "wsprd"]), True)]:
    both commands are run, [and_] does not skip the second. *)
Definition has_wsjtx : M bool :=
  let! r1 := command_is_runnable "jt9" None in
  let! r2 := command_is_runnable "wsprd" None in
  ret ((true && r1) && r2).

Definition has_wsjtx_2_3 : M bool :=
  let! a := has_wsjtx in
  if a then _has_wsjtx_version "2.3" else ret false.
Definition has_wsjtx_2_4 : M bool :=
  let! a := has_wsjtx in
  if a then _has_wsjtx_version "2.4" else ret false.
Definition has_msk144decoder : M bool := command_is_runnable "msk144decoder" None.
Definition has_js8 : M bool := command_is_runnable "js8" None.
Definition has_js8py : M bool :=
  try_except
    (let! strictversion := import_from "js8py.version" "strictversion" in
     lift (StrictVersion_ge strictversion "0.2"))
    except_ImportError.
Definition has_alsa : M bool := command_is_runnable "arecord --help" None.
Definition has_rockprog : M bool := command_is_runnable "rockprog" None.
Definition has_freedv_rx : M bool := command_is_runnable "freedv_rx" None.
Definition has_dream : M bool := command_is_runnable "dream --help" (Some 0%Z).
Definition has_sddc_connector : M bool := _check_connector "sddc_connector" "0.1".
Definition has_soapy_sddc : M bool := _has_soapy_driver "SDDC".
Definition has_hpsdr_connector : M bool := command_is_runnable "hpsdrconnector -h" None.
Definition has_runds_connector : M bool := _check_connector "runds_connector" "0.2".

Definition has_codecserver_ambe : M bool :=
  let! config := Config_get in
  let server :=
    match config !! "digital_voice_codecserver" with
    | Some s => s
    | None => EmptyString
    end in
  try_except
    (import_from "digiham.modules" "MbeSynthesizer" ;;
     MbeSynthesizer_hasAmbe server)
    (fun e =>
       match e with
       | ImportError => Some (ret false)
       | ConnectionError => Some (ret false)
       | RuntimeError =>
           Some (logger_exception "Codecserver error while checking for AMBE support:" ;;
                 ret false)
       | _ => None
       end).

Definition has_dump1090 : M bool := command_is_runnable "dump1090 --version" None.
Definition has_rtl_433 : M bool := command_is_runnable "rtl_433 -h" None.
Definition has_dumphfdl : M bool := command_is_runnable "dumphfdl --version" None.
Definition has_dumpvdl2 : M bool := command_is_runnable "dumpvdl2 --version" None.
Definition has_redsea : M bool := command_is_runnable "redsea --version" None.
Definition has_csdreti : M bool :=
  has_module_versions "csdreti.modules" "csdreti_version" "version" "0.1".
Definition has_dablin : M bool := command_is_runnable "dablin -h" None.
Definition has_paho_mqtt : M bool :=
  try_except
    (import_from "paho.mqtt" "__version__" ;; ret true)
    except_ImportError.

(** The callable attributes of a [FeatureDetector] whose name starts with
    [has_], each as what calling it without arguments does.  The two
    dispatch methods are among them: called without their argument they
    raise [TypeError]. *)
Definition methods : list (string * M bool) :=
  [ ("has_requirements", raise TypeError);
    ("has_requirement", raise TypeError);
    ("has_csdr", has_csdr);
    ("has_nmux", has_nmux);
    ("has_perseustest", has_perseustest);
    ("has_digiham", has_digiham);
    ("has_rtl_connector", has_rtl_connector);
    ("has_rtl_tcp_connector", has_rtl_tcp_connector);
    ("has_soapy_connector", has_soapy_connector);
    ("has_soapy_rtl_sdr", has_soapy_rtl_sdr);
    ("has_soapy_sdrplay", has_soapy_sdrplay);
    ("has_soapy_airspy", has_soapy_airspy);
    ("has_soapy_airspyhf", has_soapy_airspyhf);
    ("has_soapy_afedri", has_soapy_afedri);
    ("has_soapy_lime_sdr", has_soapy_lime_sdr);
    ("has_soapy_pluto_sdr", has_soapy_pluto_sdr);
    ("has_soapy_remote", has_soapy_remote);
    ("has_soapy_uhd", has_soapy_uhd);
    ("has_soapy_radioberry", has_soapy_radioberry);
    ("has_soapy_hackrf", has_soapy_hackrf);
    ("has_soapy_fcdpp", has_soapy_fcdpp);
    ("has_soapy_bladerf", has_soapy_bladerf);
    ("has_m17_demod", has_m17_demod);
    ("has_direwolf", has_direwolf);
    ("has_wsjtx", has_wsjtx);
    ("has_wsjtx_2_3", has_wsjtx_2_3);
    ("has_wsjtx_2_4", has_wsjtx_2_4);
    ("has_msk144decoder", has_msk144decoder);
    ("has_js8", has_js8);
    ("has_js8py", has_js8py);
    ("has_alsa", has_alsa);
    ("has_rockprog", has_rockprog);
    ("has_freedv_rx", has_freedv_rx);
    ("has_dream", has_dream);
    ("has_sddc_connector", has_sddc_connector);
    ("has_soapy_sddc", has_soapy_sddc);
    ("has_hpsdr_connector", has_hpsdr_connector);
    ("has_runds_connector", has_runds_connector);
    ("has_codecserver_ambe", has_codecserver_ambe);
    ("has_dump1090", has_dump1090);
    ("has_rtl_433", has_rtl_433);
    ("has_dumphfdl", has_dumphfdl);
    ("has_dumpvdl2", has_dumpvdl2);
    ("has_redsea", has_redsea);
    ("has_csdreti", has_csdreti);
    ("has_dablin", has_dablin);
    ("has_paho_mqtt", has_paho_mqtt) ].

Definition _get_requirement_method (requirement : string) : option (M bool) :=
  let methodname := "has_" +:+ requirement in
  dict_get methods methodname.

Definition has_requirement (requirement : string) : M bool :=
  emit (EvHasRequirement requirement) ;;
  let! hit := FeatureCache_has requirement in
  if hit then FeatureCache_get requirement
  else
    let method := _get_requirement_method requirement in
    let! result :=
      match method with
      | Some method => emit (EvMethod ("has_" +:+ requirement)) ;; method
      | None =>
          logger_error ("detection of requirement " +:+ requirement
                        +:+ " not implement. please fix in code!") ;;
          ret false
      end in
    FeatureCache_set requirement result ;;
    ret result.

(** The loop of [has_requirements], entered with the current [passed]:
    [passed = passed and self.has_requirement(requirement)]. *)
Fixpoint has_requirements_from (passed : bool) (requirements : list string) : M bool :=
  match requirements with
  | [] => ret passed
  | requirement :: rest =>
      let! passed' := (if passed then has_requirement requirement else ret false) in
      has_requirements_from passed' rest
  end.

Definition has_requirements (requirements : list string) : M bool :=
  has_requirements_from true requirements.

Definition get_requirements (feature : string) : M (list string) :=
  match dict_get features feature with
  | Some requirements => ret requirements
  | None =>
      raise (UnknownFeatureException
               ("Feature " +:+ dquote +:+ feature +:+ dquote +:+ " is not known."))
  end.

Definition is_available (feature : string) : M bool :=
  let! requirements := get_requirements feature in
  has_requirements requirements.

Definition get_failed_requirements (feature : string) : M (list string) :=
  let! requirements := get_requirements feature in
  let! results :=
    mapM (fun req => let! ok := has_requirement req in ret (req, ok)) requirements in
  ret (map fst (filter (fun p => negb (snd p)) results)).

End FeatureDetector.

Arguments wait_loop budget command process n w : simpl nomatch.

(** ** Hosts and library functions to run the model on *)

(** A host on which nothing is installed: every launch fails with
    [FileNotFoundError], every import with [ImportError]; the environment
    has [DISPLAY] set; the clock reads [clock n] at interaction [n]. *)
Definition bare_host (clock : nat -> Z) : Host :=
  {| events := 0;
     clock_at := clock;
     popen_at := fun _ _ => inl FileNotFoundError;
     environ_at := fun _ => {[ "DISPLAY" := ":0" ]};
     tmp_dir_at := fun _ => "/tmp";
     import_at := fun _ _ _ => None;
     config_at := fun _ => ∅;
     hasAmbe_at := fun _ _ => inl ConnectionError |}.

(** The host [h] with its answer to [subprocess.Popen] replaced. *)
Definition with_popen (popen : nat -> SpawnRequest -> exn + Process) (h : Host) : Host :=
  {| events := events h;
     clock_at := clock_at h;
     popen_at := popen;
     environ_at := environ_at h;
     tmp_dir_at := tmp_dir_at h;
     import_at := import_at h;
     config_at := config_at h;
     hasAmbe_at := hasAmbe_at h |}.

(** The world at start-up: nothing cached, nothing done yet. *)
Definition initial_world (h : Host) : World :=
  {| cache := ∅; host := h; trace := [] |}.

(** Words of a command line made of plain words and single spaces, on
    which [shlex.split] is splitting at the spaces. *)
Fixpoint words_from (word : string) (s : string) : list string :=
  match s with
  | EmptyString => [word]
  | String c s' =>
      if Ascii.eqb c " "%char then word :: words_from EmptyString s'
      else words_from (word +:+ String c EmptyString) s'
  end.

(** Library functions on plain ASCII input: commands of plain words, bytes
    that decode to themselves, text with nothing to strip, and version
    comparison left out (it raises). *)
Definition plain_lib : PyLib :=
  {| shlex_split := fun command => inr (words_from EmptyString command);
     bytes_decode := fun b => inr b;
     str_strip := fun s => s;
     LooseVersion_ge := fun _ _ => inl TypeError;
     StrictVersion_ge := fun _ _ => inl TypeError |}.



(** A process that exits at once with [rc], having written [out]. *)
Definition prompt_process (args out : list string) (rc : Z) : Process :=
  {| proc_args := args; proc_stdout := out; proc_wait := fun _ _ => Some rc |}.

(** A connector that prints its version line and then stays alive. *)
Definition lingering_connector (args : list string) : Process :=
  {| proc_args := args;
     proc_stdout := ["rtl_connector version 0.7" +:+ newline];
     proc_wait := fun _ _ => None |}.

(** ** Reading the trace *)

(** The requirements [has_requirement] was entered with, in order. *)
Definition calls (t : list Event) : list string :=
  omap (fun ev => match ev with EvHasRequirement r => Some r | _ => None end) t.

(** The detection methods [has_requirement] invoked, in order. *)
Definition invoked (t : list Event) : list string :=
  omap (fun ev => match ev with EvMethod m => Some m | _ => None end) t.

(** The [subprocess.Popen] calls made, in order. *)
Definition spawns (t : list Event) : list SpawnRequest :=
  omap (fun ev => match ev with EvPopen req => Some req | _ => None end) t.

(** The messages logged at [level], in order. *)
Definition logged (level : LogLevel) (t : list Event) : list string :=
  omap (fun ev =>
          match ev, level with
          | EvLog WARNING msg, WARNING => Some msg
          | EvLog ERROR msg, ERROR => Some msg
          | _, _ => None
          end) t.

(** The environment a spawned child gets when the caller's is [environ]. *)
Definition child_environment (environ : gmap string string) (req : SpawnRequest)
  : gmap string string :=
  match sp_env req with
  | Some env => env
  | None => environ
  end.

(** The warning and the kill of one round of the loop of
    [command_is_runnable]. *)
Definition timeout_round (command : string) (process : Process) : list Event :=
  [ EvLog WARNING (timeout_warning command); EvKill (proc_args process) ].

Fixpoint timeout_rounds (n : nat) (command : string) (process : Process) : list Event :=
  match n with
  | O => []
  | S n' => timeout_round command process ++ timeout_rounds n' command process
  end.

(** The world with [evs] added to its trace. *)
Definition record_events (evs : list Event) (w : World) : World :=
  {| cache := cache w; host := host w; trace := trace w ++ evs |}.

(** The host after [k] more interactions. *)
Definition ticks (k : nat) (h : Host) : Host := Nat.iter k tick h.

(** The events a detection method leaves in the trace: log records,
    launches and kills; never an entry into [has_requirement]. *)
Definition probe_event (ev : Event) : bool :=
  match ev with
  | EvLog _ _ | EvPopen _ | EvKill _ => true
  | EvHasRequirement _ | EvMethod _ => false
  end.

(** [probe_steps w w']: from [w] to [w'] the cache was not touched, the
    host only answered some more interactions, and the trace only grew, by
    probe events. *)
Definition probe_steps (w w' : World) : Prop :=
  cache w' = cache w
  /\ (exists k, host w' = ticks k (host w))
  /\ (exists evs, trace w' = (trace w ++ evs)%list /\ forallb probe_event evs = true).

(** [m] takes every world to one related to it by [R], whatever it
    returns or raises. *)
Definition preserves (R : World -> World -> Prop) {A} (m : M A) : Prop :=
  forall w, R w (snd (m w)).

(** The process exits with [rc] at its wait number [k] (of 10 seconds each)
    and at none before. *)
Definition first_exit (process : Process) (k : nat) (rc : Z) : Prop :=
  proc_wait process k 10 = Some rc
  /\ forall j, j < k -> proc_wait process j 10 = None.

Section Evaluation.

Context {lib : PyLib}.
Variable fuel : nat.

(** [all_pass reqs w w']: evaluated one after the other from world [w],
    [has_requirement] returns true for every requirement of [reqs], and the
    world is [w'] afterwards. *)
Inductive all_pass : list string -> World -> World -> Prop :=
| all_pass_nil w : all_pass [] w w
| all_pass_cons r rest w w1 w2 :
    has_requirement fuel r w = (Ok true, w1) ->
    all_pass rest w1 w2 ->
    all_pass (r :: rest) w w2.

(** What [has_requirement] does after a miss: resolve the method, call it
    or log the defect, store the result, return it. *)
Definition probe_and_store (r : string) : M bool :=
  let! result :=
    match _get_requirement_method fuel r with
    | Some method => emit (EvMethod ("has_" +:+ r)) ;; method
    | None =>
        logger_error ("detection of requirement " +:+ r
                      +:+ " not implement. please fix in code!") ;;
        ret false
    end in
  FeatureCache_set r result ;;
  ret result.

(** Whether every requirement named in the catalog resolves to a method. *)
Definition catalog_implemented : bool :=
  forallb (fun entry =>
             forallb (fun r =>
                        match _get_requirement_method fuel r with
                        | Some _ => true
                        | None => false
                        end)
                     (snd entry))
          features.

(** The request [command_is_runnable] launches [cmd] with in world [w]. *)
Definition probe_request (cmd : list string) (w : World) : SpawnRequest :=
  {| sp_args := cmd;
     sp_stdin := DEVNULL;
     sp_stdout := DEVNULL;
     sp_stderr := DEVNULL;
     sp_cwd := Some (tmp_dir_at (host w) (events (host w)));
     sp_env := Some (delete "DISPLAY" (environ_at (host w) (S (events (host w))))) |}.

(** What the host answers when [command_is_runnable] launches [cmd] from
    world [w]: the launch is its third interaction with the host. *)
Definition probe_launch (cmd : list string) (w : World) : exn + Process :=
  popen_at (host w) (S (S (events (host w)))) (probe_request cmd w).

(** The world once [command_is_runnable] has launched [cmd] from [w]: three
    interactions with the host (temporary directory, environment, launch)
    and the launch in the trace. *)
Definition launched (cmd : list string) (w : World) : World :=
  record_event (EvPopen (probe_request cmd w)) (set_host (ticks 3 (host w)) w).

(** How [command_is_runnable] reads the exit code [rc]. *)
Definition verdict (expected_result : option Z) (rc : Z) : bool :=
  match expected_result with
  | None => negb (rc =? 32512)%Z
  | Some expected => (rc =? expected)%Z
  end.

End Evaluation.

(** A host on which every command is found and exits at once with code 0,
    having written nothing. *)
Definition ready_host (clock : nat -> Z) : Host :=
  with_popen (fun _ req => inr (prompt_process (sp_args req) [] 0)) (bare_host clock).


(** A host on which every command is found, prints the version line of
    [rtl_connector] and then stays alive. *)
Definition lingering_host (clock : nat -> Z) : Host :=
  with_popen (fun _ req => inr (lingering_connector (sp_args req))) (bare_host clock).

(** A host on which a command is found (and exits at once with code 0) only
    by the launch that is the host's interaction number 2: the first probe
    of a fresh [FeatureDetector] succeeds, the later ones fail. *)
Definition flaky_host (clock : nat -> Z) : Host :=
  with_popen (fun n req =>
                if Nat.eqb n 2 then inr (prompt_process (sp_args req) [] 0)
                else inl FileNotFoundError)
             (bare_host clock).

(** A clock that reads 0 for the first four interactions, one hour at the
    next, and three hours from then on. *)
Definition stepping_clock (n : nat) : Z :=
  if Nat.ltb n 4 then 0%Z
  else if Nat.ltb n 5 then 3600000000%Z
  else 10800000000%Z.

(** The start-up worlds of the two hosts, the clock at 0. *)
Definition bare_world : World := initial_world (bare_host (fun _ => 0%Z)).
Definition ready_world : World := initial_world (ready_host (fun _ => 0%Z)).
Definition lingering_world : World := initial_world (lingering_host (fun _ => 0%Z)).
Definition flaky_world : World := initial_world (flaky_host stepping_clock).

(** The world two hours after [set("nmux", True)] at start-up: the cache
    [set] left, the clock at the last instant of the entry's validity. *)
Definition two_hours_later : World :=
  set_host (bare_host (fun _ => 7200000000%Z))
           (snd (FeatureCache_set "nmux" true bare_world)).


(** A world whose one cache entry expires at the very instant the clock
    shows. *)
Definition boundary_world : World :=
  {| cache := {[ "csdr" := {| value := true; valid_to := 100 |} ]};
     host := bare_host (fun _ => 100%Z);
     trace := [] |}.

(** ** Reports: [feature_availability] and [feature_report] *)

(** A Python dict as its items in insertion order: [d[key] = v] replaces
    the value of a key that is there, in place, and appends a new key. *)
Fixpoint dict_set {A} (d : list (string * A)) (key : string) (v : A) : list (string * A) :=
  match d with
  | [] => [(key, v)]
  | (k, v') :: d' =>
      if String.eqb k key then (k, v) :: d' else (k, v') :: dict_set d' key v
  end.

(** The dict comprehension [{name: f(name) for name in names}], continuing
    from the dict [d] built so far: [f] is called on the names in order. *)
Fixpoint dict_comprehension_from {A} (f : string -> M A) (d : list (string * A))
    (names : list string) : M (list (string * A)) :=
  match names with
  | [] => ret d
  | name :: rest =>
      let! v := f name in
      dict_comprehension_from f (dict_set d name v) rest
  end.

Definition dict_comprehension {A} (f : string -> M A) (names : list string)
  : M (list (string * A)) :=
  dict_comprehension_from f [] names.



Section Reports.

Context {lib : PyLib}.
Variable fuel : nat.

(** [inspect.getdoc] of the method with the given attribute name, and of
    [None] when no method was resolved: the docstrings are text this
    development does not look into. *)
Variable inspect_getdoc : option string -> option string.

Definition feature_availability : M (list (string * bool)) :=
  dict_comprehension (is_available fuel) (map fst features).





(** [answers reqs w results w']: evaluated one after the other from world
    [w], [has_requirement] returns, for each requirement of [reqs], the
    boolean at the same place in [results], and the world is [w']
    afterwards. *)
Inductive answers : list string -> World -> list bool -> World -> Prop :=
| answers_nil w : answers [] w [] w
| answers_cons r rest b bs w w1 w2 :
    has_requirement fuel r w = (Ok b, w1) ->
    answers rest w1 bs w2 ->
    answers (r :: rest) w (b :: bs) w2.

(** The requirements of [reqs] whose answer in [results] is false. *)
Fixpoint failed (reqs : list string) (results : list bool) : list string :=
  match reqs, results with
  | r :: reqs', b :: results' =>
      if b then failed reqs' results' else r :: failed reqs' results'
  | _, _ => []
  end.

End Reports.

(** The boolean the cache of [w] holds for [r]; false when it holds none. *)
Definition cached (w : World) (r : string) : bool :=
  match cache w !! r with
  | Some entry => value entry
  | None => false
  end.

(** The cache of [w] has an entry for [r] that no reading of the clock of
    [w] is past. *)
Definition always_valid (w : World) (r : string) : Prop :=
  exists entry,
    cache w !! r = Some entry /\ forall n, (clock_at (host w) n <= valid_to entry)%Z.

(** The launch requests of the three probes that read their child's
    output. *)
Definition connector_request (command : string) : SpawnRequest :=
  {| sp_args := [command; "--version"];
     sp_stdin := Inherited;
     sp_stdout := PIPE;
     sp_stderr := Inherited;
     sp_cwd := None;
     sp_env := None |}.

Definition listdrivers_request : SpawnRequest :=
  {| sp_args := ["soapy_connector"; "--listdrivers"];
     sp_stdin := Inherited;
     sp_stdout := PIPE;
     sp_stderr := DEVNULL;
     sp_cwd := None;
     sp_env := None |}.

(** Whether the text has a line feed in it. *)
Fixpoint has_line_feed (s : string) : bool :=
  match s with
  | EmptyString => false
  | String c s' => Ascii.eqb c "010"%char || has_line_feed s'
  end.

(** A world with both requirements of [perseussdr] cached for good, the
    first true and the second false. *)
Definition warm_world : World :=
  {| cache := {[ "perseustest" := {| value := true; valid_to := 100 |};
                 "nmux" := {| value := false; valid_to := 100 |} ]};
     host := bare_host (fun _ => 0%Z);
     trace := [] |}.

(** A host on which [soapy_connector] lists the drivers [rtlsdr] and
    [sdrplay] and exits at once; and its start-up world. *)
Definition soapy_host (clock : nat -> Z) : Host :=
  with_popen (fun _ req =>
                inr (prompt_process (sp_args req) ["rtlsdr"; "sdrplay"] 0))
             (bare_host clock).
Definition soapy_world : World := initial_world (soapy_host (fun _ => 0%Z)).

(** Library functions as [plain_lib], with [LooseVersion]'s comparison
    answering true on equal texts (and raising on others). *)
Definition equal_lib : PyLib :=
  {| shlex_split := fun command => inr (words_from EmptyString command);
     bytes_decode := fun b => inr b;
     str_strip := fun s => s;
     LooseVersion_ge := fun a b => if String.eqb a b then inr true else inl TypeError;
     StrictVersion_ge := fun _ _ => inl TypeError |}.

(** A host on which every command prints the version line of [rtl_connector]
    0.7 and exits at once with code 1; and its start-up world. *)
Definition connector_host (clock : nat -> Z) : Host :=
  with_popen (fun _ req =>
                inr (prompt_process (sp_args req)
                       ["rtl_connector version 0.7" +:+ newline] 1))
             (bare_host clock).
Definition connector_world : World := initial_world (connector_host (fun _ => 0%Z)).


(** A host on which the codec server breaks with a [RuntimeError], the
    [digiham] module being installed; and its start-up world. *)
Definition broken_codecserver_host (clock : nat -> Z) : Host :=
  {| events := 0;
     clock_at := clock;
     popen_at := fun _ _ => inl FileNotFoundError;
     environ_at := fun _ => ∅;
     tmp_dir_at := fun _ => "/tmp";
     import_at := fun _ _ _ => Some "0.6";
     config_at := fun _ => ∅;
     hasAmbe_at := fun _ _ => inl RuntimeError |}.
Definition broken_codecserver_world : World :=
  initial_world (broken_codecserver_host (fun _ => 0%Z)).

(** A process that ignores the first kill and dies of the second: its
    exit code is the negated signal number, -9. *)
Definition killed_process (args : list string) : Process :=
  {| proc_args := args;
     proc_stdout := [];
     proc_wait := fun n _ => if Nat.ltb n 2 then None else Some (-9)%Z |}.

Definition hanging_host (clock : nat -> Z) : Host :=
  with_popen (fun _ req => inr (killed_process (sp_args req))) (bare_host clock).
Definition hanging_world : World := initial_world (hanging_host (fun _ => 0%Z)).

(** The cache of [w] holds no true value for a requirement name that has
    no [has_<name>] method. *)
Definition unimplemented_false {lib : PyLib} (fuel : nat) (w : World) : Prop :=
  forall r entry,
    _get_requirement_method fuel r = None ->
    cache w !! r = Some entry ->
    value entry = false.

(** The start-up world of the bare host once [has_requirement("foo")] has
    been called on it. *)
Definition once_asked_world : World :=
  snd (has_requirement (lib := plain_lib) 3 "foo" bare_world).

(** ** Running monadic code *)

Lemma bind_eq {A B} (m : M A) (k : A -> M B) w :
  bind m k w
  = match m w with
    | (Ok a, w') => k a w'
    | (Raise e, w') => (Raise e, w')
    | (Unfinished, w') => (Unfinished, w')
    end.
Proof. reflexivity. Qed.

Lemma try_except_eq {A} (body : M A) handler w :
  try_except body handler w
  = match body w with
    | (Raise e, w') =>
        match handler e with
        | Some h => h w'
        | None => (Raise e, w')
        end
    | r => r
    end.
Proof. reflexivity. Qed.

Lemma subprocess_Popen_eq req w :
  subprocess_Popen req w
  = match popen_at (host w) (events (host w)) req with
    | inl e => (Raise e, record_event (EvPopen req) (set_host (tick (host w)) w))
    | inr process => (Ok process, record_event (EvPopen req) (set_host (tick (host w)) w))
    end.
Proof.
  unfold subprocess_Popen, bind, emit, ask, lift. simpl.
  destruct (popen_at (host w) (events (host w)) req); reflexivity.
Qed.

(** ** FeatureCache: lookup, expiry, round trip *)

Section Cache.

Implicit Types (w : World) (feature : string) (entry : CacheEntry).

Lemma FeatureCache_has_absent feature w :
  cache w !! feature = None ->
  FeatureCache_has feature w = (Ok false, w).
Proof. intros Habs. unfold FeatureCache_has. by rewrite Habs. Qed.

Lemma FeatureCache_has_present feature w entry :
  cache w !! feature = Some entry ->
  FeatureCache_has feature w
  = (Ok (negb (valid_to entry <? now w)%Z), set_host (tick (host w)) w).
Proof.
  intros Hin. unfold FeatureCache_has. rewrite Hin.
  unfold bind, datetime_now, ask, ret, now.
  by destruct (valid_to entry <? _)%Z.
Qed.

(** [has] never raises: it answers with a boolean. *)
Lemma FeatureCache_has_total feature w :
  exists b, fst (FeatureCache_has feature w) = Ok b.
Proof.
  destruct (cache w !! feature) as [entry|] eqn:E.
  - rewrite (FeatureCache_has_present _ _ _ E). eauto.
  - rewrite (FeatureCache_has_absent _ _ E). eauto.
Qed.

(** [has] leaves the cache and the trace as they are. *)
Lemma FeatureCache_has_frame feature w :
  cache (snd (FeatureCache_has feature w)) = cache w
  /\ trace (snd (FeatureCache_has feature w)) = trace w.
Proof.
  destruct (cache w !! feature) as [entry|] eqn:E.
  - by rewrite (FeatureCache_has_present _ _ _ E).
  - by rewrite (FeatureCache_has_absent _ _ E).
Qed.

Lemma FeatureCache_set_eq feature v w :
  FeatureCache_set feature v w
  = (Ok tt,
     set_cache (<[feature := {| value := v; valid_to := (now w + cachetime)%Z |}]> (cache w))
               (set_host (tick (host w)) w)).
Proof. reflexivity. Qed.

Lemma FeatureCache_get_present feature w entry :
  cache w !! feature = Some entry ->
  FeatureCache_get feature w = (Ok (value entry), w).
Proof. intros Hin. unfold FeatureCache_get. by rewrite Hin. Qed.

End Cache.

(** C7, as stated, fails at the boundary: with the entry's expiry equal to
    the current time (so not strictly after it), [has] still answers true. *)
Lemma has_true_at_expiry_instant :
  cache boundary_world !! "csdr" = Some {| value := true; valid_to := 100 |}
  /\ now boundary_world = 100%Z
  /\ ~ (now boundary_world < 100)%Z
  /\ fst (FeatureCache_has "csdr" boundary_world) = Ok true.
Proof. repeat split; try reflexivity. vm_compute. discriminate. Qed.

(** C7 (amended): for every name and every clock instant, [has(name)]
    returns true if and only if an entry exists for the name and the current
    time is not after that entry's expiry instant (the entry counts as
    expired only once its expiry is strictly before the current time); in
    every other case it returns false. *)
Theorem FeatureCache_has_iff (feature : string) (w : World) :
  (fst (FeatureCache_has feature w) = Ok true
   <-> exists entry, cache w !! feature = Some entry /\ (now w <= valid_to entry)%Z)
  /\ (fst (FeatureCache_has feature w) = Ok true
      \/ fst (FeatureCache_has feature w) = Ok false).
Proof.
  destruct (cache w !! feature) as [entry|] eqn:E.
  - rewrite (FeatureCache_has_present _ _ _ E). simpl.
    destruct (Z.ltb_spec (valid_to entry) (now w)); simpl; split; auto; split.
    + discriminate.
    + intros (e & He & Hle). assert (e = entry) by congruence. subst. lia.
    + intros _. exists entry. split; [done | lia].
    + done.
  - rewrite (FeatureCache_has_absent _ _ E). simpl. split; auto; split.
    + discriminate.
    + intros (e & He & _). discriminate.
Qed.

(** C10: right after [set(name, value)], in any later world that still has
    the cache [set] left and whose clock is not past the stored expiry,
    [get(name)] returns exactly [value] and [has(name)] returns true.  The
    stored expiry is the time [set] read plus [cachetime]. *)
Theorem FeatureCache_set_get (feature : string) (v : bool) (w w2 : World) :
  cache w2 = cache (snd (FeatureCache_set feature v w)) ->
  (now w2 <= now w + cachetime)%Z ->
  cache w2 !! feature = Some {| value := v; valid_to := (now w + cachetime)%Z |}
  /\ fst (FeatureCache_get feature w2) = Ok v
  /\ fst (FeatureCache_has feature w2) = Ok true.
Proof.
  intros Hc Hnow. rewrite FeatureCache_set_eq in Hc. simpl in Hc.
  assert (Hin : cache w2 !! feature
                = Some {| value := v; valid_to := (now w + cachetime)%Z |}).
  { rewrite Hc. apply lookup_insert_eq. }
  split; [exact Hin |]. split.
  - by rewrite (FeatureCache_get_present _ _ _ Hin).
  - rewrite (FeatureCache_has_present _ _ _ Hin). simpl.
    destruct (Z.ltb_spec (now w + cachetime) (now w2)); [lia | done].
Qed.

(** The round trip on the start-up world: [set("nmux", True)] at time 0,
    read back at the last instant of the two hours. *)
Lemma FeatureCache_set_get_witness :
  cache two_hours_later = cache (snd (FeatureCache_set "nmux" true bare_world))
  /\ (now two_hours_later <= now bare_world + cachetime)%Z
  /\ cache two_hours_later !! "nmux"
     = Some {| value := true; valid_to := (now bare_world + cachetime)%Z |}
  /\ fst (FeatureCache_get "nmux" two_hours_later) = Ok true
  /\ fst (FeatureCache_has "nmux" two_hours_later) = Ok true.
Proof.
  assert (Hnow : (now two_hours_later <= now bare_world + cachetime)%Z).
  { vm_compute. discriminate. }
  split; [reflexivity |]. split; [exact Hnow |].
  apply (FeatureCache_set_get "nmux" true bare_world two_hours_later eq_refl Hnow).
Defined.

(** ** Dispatch: [has_requirement] *)

Section Dispatch.

Context {lib : PyLib}.
Variable fuel : nat.

Implicit Types (w : World) (r requirement : string) (reqs : list string).

Lemma FeatureCache_has_record_event r ev w :
  FeatureCache_has r (record_event ev w)
  = (fst (FeatureCache_has r w), record_event ev (snd (FeatureCache_has r w))).
Proof.
  destruct (cache w !! r) as [entry|] eqn:E.
  - rewrite (FeatureCache_has_present r w entry E).
    by rewrite (FeatureCache_has_present r (record_event ev w) entry E).
  - rewrite (FeatureCache_has_absent r w E).
    by rewrite (FeatureCache_has_absent r (record_event ev w) E).
Qed.

Lemma has_requirement_miss r w :
  fst (FeatureCache_has r w) = Ok false ->
  has_requirement fuel r w
  = probe_and_store fuel r (record_event (EvHasRequirement r) (snd (FeatureCache_has r w))).
Proof.
  intros Hmiss. unfold has_requirement, bind at 1 2, emit.
  rewrite FeatureCache_has_record_event.
  destruct (FeatureCache_has r w) as [res w1]. simpl in Hmiss. subst res.
  reflexivity.
Qed.

Lemma has_requirement_hit r w entry :
  cache w !! r = Some entry ->
  (now w <= valid_to entry)%Z ->
  has_requirement fuel r w
  = (Ok (value entry), set_host (tick (host w)) (record_event (EvHasRequirement r) w)).
Proof.
  intros Hin Hnow. unfold has_requirement, bind at 1 2, emit.
  rewrite FeatureCache_has_record_event, (FeatureCache_has_present r w entry Hin).
  simpl. destruct (Z.ltb_spec (valid_to entry) (now w)); [lia |]. simpl.
  unfold FeatureCache_get. simpl. by rewrite Hin.
Qed.

(** A hit or a miss: [has] decides it, and on a hit the entry is there. *)
Lemma FeatureCache_has_cases r w :
  (exists entry, cache w !! r = Some entry /\ (now w <= valid_to entry)%Z)
  \/ fst (FeatureCache_has r w) = Ok false.
Proof.
  destruct (cache w !! r) as [entry |] eqn:E.
  - destruct (Z.ltb_spec (valid_to entry) (now w)) as [Hlt | Hge].
    + right. rewrite (FeatureCache_has_present r w entry E). simpl.
      by destruct (Z.ltb_spec (valid_to entry) (now w)); [| lia].
    + left. by exists entry.
  - right. by rewrite (FeatureCache_has_absent r w E).
Qed.

(** A requirement name with no [has_<name>] method never makes
    [has_requirement] raise; and when the cache does not answer for it,
    [has_requirement] returns false, logs one error naming the requirement,
    and stores false in the cache, valid for [cachetime] from the time it
    is stored. *)
Lemma has_requirement_no_method r w :
  _get_requirement_method fuel r = None ->
  (exists b w', has_requirement fuel r w = (Ok b, w'))
  /\ (fst (FeatureCache_has r w) = Ok false ->
      exists w',
        has_requirement fuel r w = (Ok false, w')
        /\ trace w'
           = (trace w
              ++ [ EvHasRequirement r;
                   EvLog ERROR ("detection of requirement " +:+ r
                                +:+ " not implement. please fix in code!") ])%list
        /\ cache w'
           = <[r := {| value := false;
                       valid_to := (now (snd (FeatureCache_has r w)) + cachetime)%Z |}]>
               (cache w)).
Proof.
  intros Hnone.
  assert (Hmiss : fst (FeatureCache_has r w) = Ok false ->
      exists w',
        has_requirement fuel r w = (Ok false, w')
        /\ trace w'
           = (trace w
              ++ [ EvHasRequirement r;
                   EvLog ERROR ("detection of requirement " +:+ r
                                +:+ " not implement. please fix in code!") ])%list
        /\ cache w'
           = <[r := {| value := false;
                       valid_to := (now (snd (FeatureCache_has r w)) + cachetime)%Z |}]>
               (cache w)).
  { intros Hf. rewrite (has_requirement_miss r w Hf).
    unfold probe_and_store. rewrite Hnone.
    destruct (FeatureCache_has_frame r w) as [Hc Ht].
    eexists. split; [reflexivity |]. simpl. split.
    - rewrite Ht, <- app_assoc. reflexivity.
    - by rewrite Hc. }
  split; [| exact Hmiss].
  destruct (FeatureCache_has_cases r w) as [(entry & Hin & Hnow) | Hf].
  - rewrite (has_requirement_hit r w entry Hin Hnow). eauto.
  - destruct (Hmiss Hf) as (w' & Hrun & _). eauto.
Qed.

End Dispatch.



(** ** Dispatch: [has_requirements] and [is_available] *)

Section Availability.

Context {lib : PyLib}.
Variable fuel : nat.

Implicit Types (w : World) (r : string) (reqs pre post : list string).

(** Once [passed] is false the loop calls nothing more. *)
Lemma has_requirements_from_false reqs w :
  has_requirements_from fuel false reqs w = (Ok false, w).
Proof.
  revert w. induction reqs as [| r rest IH]; intros w; [reflexivity |].
  simpl. unfold bind, ret at 1. apply IH.
Qed.

Lemma has_requirements_cons r reqs w :
  has_requirements fuel (r :: reqs) w
  = match has_requirement fuel r w with
    | (Ok true, w1) => has_requirements fuel reqs w1
    | (Ok false, w1) => (Ok false, w1)
    | (Raise e, w1) => (Raise e, w1)
    | (Unfinished, w1) => (Unfinished, w1)
    end.
Proof.
  unfold has_requirements. simpl. unfold bind.
  destruct (has_requirement fuel r w) as [[[|] | e |] w1]; try reflexivity.
  apply has_requirements_from_false.
Qed.

Lemma has_requirements_all_pass pre reqs w w1 :
  all_pass fuel pre w w1 ->
  has_requirements fuel (pre ++ reqs) w = has_requirements fuel reqs w1.
Proof.
  induction 1 as [| r rest w w1 w2 Hr _ IH]; [reflexivity |].
  simpl. rewrite has_requirements_cons, Hr. exact IH.
Qed.

Lemma has_requirements_true reqs w w' :
  has_requirements fuel reqs w = (Ok true, w') <-> all_pass fuel reqs w w'.
Proof.
  split.
  - revert w. induction reqs as [| r rest IH]; intros w Hrun.
    + injection Hrun as <-. constructor.
    + rewrite has_requirements_cons in Hrun.
      destruct (has_requirement fuel r w) as [[[|] | e |] w1] eqn:Hr;
        try discriminate.
      econstructor; [exact Hr | by apply IH].
  - intros Hall. rewrite <- (app_nil_r reqs).
    by rewrite (has_requirements_all_pass _ _ _ _ Hall).
Qed.

Lemma has_requirements_first_false pre r post w w1 w2 :
  all_pass fuel pre w w1 ->
  has_requirement fuel r w1 = (Ok false, w2) ->
  has_requirements fuel (pre ++ r :: post) w = (Ok false, w2).
Proof.
  intros Hall Hr.
  by rewrite (has_requirements_all_pass _ _ _ _ Hall), has_requirements_cons, Hr.
Qed.

Lemma has_requirements_false reqs w w' :
  has_requirements fuel reqs w = (Ok false, w') <->
  exists pre r post w1,
    reqs = (pre ++ r :: post)%list
    /\ all_pass fuel pre w w1
    /\ has_requirement fuel r w1 = (Ok false, w').
Proof.
  split.
  - revert w. induction reqs as [| r rest IH]; intros w Hrun; [discriminate |].
    rewrite has_requirements_cons in Hrun.
    destruct (has_requirement fuel r w) as [[[|] | e |] w1] eqn:Hr;
      try discriminate.
    + destruct (IH _ Hrun) as (pre & r' & post & w1' & -> & Hall & Hr').
      exists (r :: pre), r', post, w1'. split; [reflexivity |].
      split; [| exact Hr']. econstructor; eauto.
    + injection Hrun as <-.
      exists [], r, rest, w. split; [reflexivity |].
      split; [constructor | exact Hr].
  - intros (pre & r & post & w1 & -> & Hall & Hr).
    by apply has_requirements_first_false with w1.
Qed.

Lemma is_available_known feature reqs w :
  dict_get features feature = Some reqs ->
  is_available fuel feature w = has_requirements fuel reqs w.
Proof.
  intros Hin. unfold is_available, get_requirements. by rewrite Hin.
Qed.

Lemma is_available_unknown feature w :
  dict_get features feature = None ->
  is_available fuel feature w
  = (Raise (UnknownFeatureException
              ("Feature " +:+ dquote +:+ feature +:+ dquote +:+ " is not known.")), w).
Proof.
  intros Hout. unfold is_available, get_requirements. by rewrite Hout.
Qed.

(** C1: for a feature of the catalog, [is_available] returns true if and
    only if [has_requirement], called on the feature's requirements one
    after the other, returns true for every one of them; it returns false
    if and only if one of them returns false after all the earlier ones
    returned true.  In particular, with requirements [[A; B]], a false
    result for [A], or for [B] after a true [A], makes the feature
    unavailable. *)
Theorem is_available_and feature reqs w :
  dict_get features feature = Some reqs ->
  (fst (is_available fuel feature w) = Ok true
   <-> exists w', all_pass fuel reqs w w')
  /\ (fst (is_available fuel feature w) = Ok false
      <-> exists pre r post w1 w2,
            reqs = (pre ++ r :: post)%list
            /\ all_pass fuel pre w w1
            /\ has_requirement fuel r w1 = (Ok false, w2))
  /\ (forall A B, reqs = [A; B] ->
        (forall w1, has_requirement fuel A w = (Ok false, w1) ->
                    fst (is_available fuel feature w) = Ok false)
        /\ (forall w1 w2, has_requirement fuel A w = (Ok true, w1) ->
                          has_requirement fuel B w1 = (Ok false, w2) ->
                          fst (is_available fuel feature w) = Ok false)).
Proof.
  intros Hin. rewrite (is_available_known _ _ _ Hin).
  destruct (has_requirements fuel reqs w) as [res wf] eqn:Hrun. simpl.
  split; [| split].
  - split.
    + intros ->. exists wf. by apply has_requirements_true.
    + intros (w' & Hall). apply has_requirements_true in Hall. congruence.
  - split.
    + intros ->. apply has_requirements_false in Hrun.
      destruct Hrun as (pre & r & post & w1 & Heq & Hall & Hr). eauto 10.
    + intros (pre & r & post & w1 & w2 & Heq & Hall & Hr).
      assert (has_requirements fuel reqs w = (Ok false, w2)) as Hrun'.
      { apply has_requirements_false. eauto 10. }
      congruence.
  - intros A B ->. split.
    + intros w1 HA. rewrite has_requirements_cons, HA in Hrun. congruence.
    + intros w1 w2 HA HB.
      rewrite has_requirements_cons, HA, has_requirements_cons, HB in Hrun.
      congruence.
Qed.

End Availability.

(** ** What detection methods leave untouched *)

Section Frame.

Variable R : World -> World -> Prop.
Hypothesis R_refl : forall w, R w w.
Hypothesis R_trans : forall w1 w2 w3, R w1 w2 -> R w2 w3 -> R w1 w3.
Hypothesis R_tick : forall w, R w (set_host (tick (host w)) w).
Hypothesis R_event : forall ev w, probe_event ev = true -> R w (record_event ev w).

Context {lib : PyLib}.
Variable fuel : nat.

Lemma preserves_ret {A} (a : A) : preserves R (ret a).
Proof. intros w. apply R_refl. Qed.

Lemma preserves_raise {A} e : preserves R (raise (A := A) e).
Proof. intros w. apply R_refl. Qed.

Lemma preserves_unfinished {A} : preserves R (unfinished (A := A)).
Proof. intros w. apply R_refl. Qed.

Lemma preserves_bind {A B} (m : M A) (k : A -> M B) :
  preserves R m -> (forall a, preserves R (k a)) -> preserves R (bind m k).
Proof.
  intros Hm Hk w. unfold bind. specialize (Hm w).
  destruct (m w) as [[a | e |] w1]; simpl in *; try exact Hm.
  eapply R_trans; [exact Hm | apply Hk].
Qed.

Lemma preserves_try_except {A} (body : M A) handler :
  preserves R body ->
  (forall e h, handler e = Some h -> preserves R h) ->
  preserves R (try_except body handler).
Proof.
  intros Hb Hh w. unfold try_except. specialize (Hb w).
  destruct (body w) as [[a | e |] w1]; simpl in *; try exact Hb.
  destruct (handler e) as [h |] eqn:He; simpl; [| exact Hb].
  eapply R_trans; [exact Hb | by apply (Hh e)].
Qed.

Lemma preserves_lift {A} (r : exn + A) : preserves R (lift r).
Proof. destruct r; [apply preserves_raise | apply preserves_ret]. Qed.

Lemma preserves_emit ev : probe_event ev = true -> preserves R (emit ev).
Proof. intros Hev w. by apply R_event. Qed.

Lemma preserves_ask {A} (f : Host -> nat -> A) : preserves R (ask f).
Proof. intros w. apply R_tick. Qed.

Lemma preserves_Popen_wait process n timeout :
  preserves R (Popen_wait process n timeout).
Proof.
  unfold Popen_wait.
  destruct (proc_wait process n timeout); [apply preserves_ret | apply preserves_raise].
Qed.

(** One rule per shape of code; [frame_with known] tries the lemmas already
    proved ([known]) first, then the rules, as far as they go. *)
Ltac frame_with known :=
  repeat first
    [ known
    | apply preserves_ret
    | apply preserves_raise
    | apply preserves_unfinished
    | apply preserves_lift
    | apply preserves_ask
    | apply preserves_Popen_wait
    | apply preserves_emit; reflexivity
    | apply preserves_bind; [| intros ?]
    | apply preserves_try_except; [| intros [] ? ?; simplify_eq/=]
    | match goal with
      | |- preserves _ (match ?x with _ => _ end) => destruct x
      end ].

Ltac frame := frame_with fail.

Lemma preserves_wait_loop budget command process n :
  preserves R (wait_loop budget command process n).
Proof.
  revert n. induction budget as [| budget IH]; intros n; simpl.
  - apply preserves_unfinished.
  - unfold logger_warning, Popen_kill. frame. apply IH.
Qed.

Lemma preserves_mapM {A B} (f : A -> M B) (l : list A) :
  (forall a, preserves R (f a)) -> preserves R (mapM f l).
Proof.
  intros Hf. induction l as [| a l IH]; simpl; frame; [apply Hf | apply IH].
Qed.

Lemma preserves_subprocess_Popen req : preserves R (subprocess_Popen req).
Proof. unfold subprocess_Popen. frame. Qed.

Lemma preserves_import_from module name : preserves R (import_from module name).
Proof. unfold import_from. frame. Qed.

Lemma preserves_command_is_runnable command expected :
  preserves R (command_is_runnable fuel command expected).
Proof.
  unfold command_is_runnable, get_temporary_directory, os_environ_copy,
    except_FileNotFoundError.
  frame_with ltac:(first [apply preserves_subprocess_Popen | apply preserves_wait_loop]).
Qed.

Lemma preserves_check_connector command required :
  preserves R (_check_connector command required).
Proof.
  unfold _check_connector, except_FileNotFoundError.
  frame_with ltac:(apply preserves_subprocess_Popen).
Qed.

Lemma preserves_has_soapy_driver driver : preserves R (_has_soapy_driver driver).
Proof.
  unfold _has_soapy_driver, except_FileNotFoundError.
  frame_with ltac:(first [apply preserves_subprocess_Popen | apply preserves_mapM; intros ?]).
Qed.

Lemma preserves_has_wsjtx_version required :
  preserves R (_has_wsjtx_version required).
Proof.
  unfold _has_wsjtx_version, except_FileNotFoundError.
  frame_with ltac:(apply preserves_subprocess_Popen).
Qed.

Lemma preserves_has_module_versions module name1 name2 required :
  preserves R (has_module_versions module name1 name2 required).
Proof.
  unfold has_module_versions, except_ImportError.
  frame_with ltac:(apply preserves_import_from).
Qed.

Lemma preserves_has_wsjtx : preserves R (has_wsjtx fuel).
Proof. unfold has_wsjtx. frame_with ltac:(apply preserves_command_is_runnable). Qed.

Lemma preserves_has_codecserver_ambe : preserves R has_codecserver_ambe.
Proof.
  unfold has_codecserver_ambe, Config_get, MbeSynthesizer_hasAmbe, logger_exception.
  frame_with ltac:(apply preserves_import_from).
Qed.

Lemma preserves_has_js8py : preserves R has_js8py.
Proof. unfold has_js8py, except_ImportError. frame_with ltac:(apply preserves_import_from). Qed.

Lemma preserves_has_paho_mqtt : preserves R has_paho_mqtt.
Proof.
  unfold has_paho_mqtt, except_ImportError. frame_with ltac:(apply preserves_import_from).
Qed.

(** Every method [has_requirement] can resolve preserves [R]. *)
Lemma preserves_methods :
  Forall (fun entry => preserves R (snd entry)) (methods fuel).
Proof.
  unfold methods.
  repeat (apply Forall_cons; split;
          [ cbn [snd];
            first [ apply preserves_raise
                  | apply preserves_command_is_runnable
                  | apply preserves_check_connector
                  | apply preserves_has_soapy_driver
                  | apply preserves_has_module_versions
                  | apply preserves_has_wsjtx
                  | apply preserves_has_codecserver_ambe
                  | apply preserves_has_js8py
                  | apply preserves_has_paho_mqtt
                  | unfold has_wsjtx_2_3, has_wsjtx_2_4;
                    frame_with ltac:(first [ apply preserves_has_wsjtx
                                           | apply preserves_has_wsjtx_version ]) ]
          | ]).
  apply Forall_nil_2.
Qed.

Lemma dict_get_Forall {A} (P : A -> Prop) (d : list (string * A)) key v :
  Forall (fun entry => P (snd entry)) d -> dict_get d key = Some v -> P v.
Proof.
  induction 1 as [| [k a] d Ha _ IH]; simpl; [discriminate |].
  destruct (String.eqb k key); [| exact IH].
  intros [= <-]. exact Ha.
Qed.

Lemma preserves_requirement_method r method :
  _get_requirement_method fuel r = Some method -> preserves R method.
Proof.
  unfold _get_requirement_method.
  apply (dict_get_Forall (preserves R)). apply preserves_methods.
Qed.

End Frame.

(** ** Detection methods only probe *)

Lemma probe_steps_refl w : probe_steps w w.
Proof.
  split; [reflexivity |]. split; [by exists 0 |].
  exists []. by rewrite app_nil_r.
Qed.

Lemma probe_steps_trans w1 w2 w3 :
  probe_steps w1 w2 -> probe_steps w2 w3 -> probe_steps w1 w3.
Proof.
  intros (Hc1 & (k1 & Hh1) & (evs1 & Ht1 & Hp1)) (Hc2 & (k2 & Hh2) & (evs2 & Ht2 & Hp2)).
  split; [congruence |]. split.
  - exists (k2 + k1). rewrite Hh2, Hh1. unfold ticks. by rewrite Nat.iter_add.
  - exists (evs1 ++ evs2)%list. split.
    + by rewrite Ht2, Ht1, app_assoc.
    + rewrite forallb_app, Hp1, Hp2. reflexivity.
Qed.

Lemma probe_steps_tick w : probe_steps w (set_host (tick (host w)) w).
Proof.
  split; [reflexivity |]. split; [by exists 1 |].
  exists []. by rewrite app_nil_r.
Qed.

Lemma probe_steps_event ev w : probe_event ev = true -> probe_steps w (record_event ev w).
Proof.
  intros Hev. split; [reflexivity |]. split; [by exists 0 |].
  exists [ev]. split; [reflexivity |]. simpl. by rewrite Hev.
Qed.

(** Every method [has_requirement] can resolve leaves the cache alone and
    adds only probe events to the trace. *)
Lemma requirement_method_probes {lib : PyLib} fuel r method w :
  _get_requirement_method fuel r = Some method -> probe_steps w (snd (method w)).
Proof.
  intros Hm.
  exact (preserves_requirement_method probe_steps probe_steps_refl probe_steps_trans
           probe_steps_tick probe_steps_event fuel r method Hm w).
Qed.

Lemma calls_app t1 t2 : calls (t1 ++ t2) = (calls t1 ++ calls t2)%list.
Proof. unfold calls. apply omap_app. Qed.

Lemma calls_probe_events evs : forallb probe_event evs = true -> calls evs = [].
Proof.
  induction evs as [| ev evs IH]; [reflexivity |]. simpl.
  intros [Hev Hevs]%andb_prop. unfold calls in *. simpl.
  destruct ev; simpl in *; try discriminate; by apply IH.
Qed.

Lemma probe_steps_calls w w' : probe_steps w w' -> calls (trace w') = calls (trace w).
Proof.
  intros (_ & _ & (evs & -> & Hp)).
  by rewrite calls_app, (calls_probe_events _ Hp), app_nil_r.
Qed.

Section Order.

Context {lib : PyLib}.
Variable fuel : nat.

Implicit Types (w : World) (r : string) (reqs pre post : list string).

Lemma probe_and_store_calls r w :
  calls (trace (snd (probe_and_store fuel r w))) = calls (trace w).
Proof.
  unfold probe_and_store.
  destruct (_get_requirement_method fuel r) as [method |] eqn:Hm.
  - rewrite 2!bind_eq. unfold emit.
    pose proof (requirement_method_probes fuel r method
                  (record_event (EvMethod ("has_" +:+ r)) w) Hm) as Hsteps.
    apply probe_steps_calls in Hsteps.
    destruct (method _) as [[v | e |] wm]; simpl in *;
      rewrite Hsteps, calls_app; simpl; apply app_nil_r.

  - simpl. rewrite calls_app. apply app_nil_r.
Qed.

(** One call of [has_requirement] is one entry in the trace, whatever the
    call does. *)
Lemma has_requirement_calls r w :
  calls (trace (snd (has_requirement fuel r w))) = (calls (trace w) ++ [r])%list.
Proof.
  destruct (FeatureCache_has_cases r w) as [(entry & Hin & Hnow) | Hmiss].
  - rewrite (has_requirement_hit fuel r w entry Hin Hnow). simpl.
    by rewrite calls_app.
  - rewrite (has_requirement_miss fuel r w Hmiss), probe_and_store_calls. simpl.
    destruct (FeatureCache_has_frame r w) as [_ ->]. by rewrite calls_app.
Qed.

Lemma all_pass_calls reqs w w' :
  all_pass fuel reqs w w' -> calls (trace w') = (calls (trace w) ++ reqs)%list.
Proof.
  induction 1 as [| r rest w w1 w2 Hr _ IH]; [by rewrite app_nil_r |].
  rewrite IH. pose proof (has_requirement_calls r w) as Hc.
  rewrite Hr in Hc. simpl in Hc. by rewrite Hc, <- app_assoc.
Qed.

(** Whatever happens, the requirements [has_requirements] asks about are
    the first few of the list, in the order of the list. *)
Lemma has_requirements_calls_prefix reqs w :
  exists k, calls (trace (snd (has_requirements fuel reqs w)))
            = (calls (trace w) ++ take k reqs)%list.
Proof.
  revert w. induction reqs as [| r rest IH]; intros w.
  - exists 0. simpl. by rewrite app_nil_r.
  - rewrite has_requirements_cons.
    pose proof (has_requirement_calls r w) as Hc.
    destruct (has_requirement fuel r w) as [[[|] | e |] w1]; simpl in Hc;
      try (exists 1; simpl; by rewrite Hc).
    destruct (IH w1) as [k Hk]. exists (S k). simpl.
    by rewrite Hk, Hc, <- app_assoc.
Qed.

(** C5 (amended): within one [is_available] evaluation [has_requirement]
    is invoked on the feature's requirements in the catalog's declared
    order, starting from the first; when every requirement evaluates to
    true it is invoked on all of them, and when one evaluates to false the
    evaluation ends there: [has_requirement] is not invoked on the
    requirements after it. *)
Theorem is_available_order feature reqs w :
  dict_get features feature = Some reqs ->
  (exists k, calls (trace (snd (is_available fuel feature w)))
             = (calls (trace w) ++ take k reqs)%list)
  /\ (forall w', all_pass fuel reqs w w' ->
        is_available fuel feature w = (Ok true, w')
        /\ calls (trace w') = (calls (trace w) ++ reqs)%list)
  /\ (forall pre r post w1 w2,
        reqs = (pre ++ r :: post)%list ->
        all_pass fuel pre w w1 ->
        has_requirement fuel r w1 = (Ok false, w2) ->
        is_available fuel feature w = (Ok false, w2)
        /\ calls (trace w2) = (calls (trace w) ++ pre ++ [r])%list).
Proof.
  intros Hin. rewrite (is_available_known fuel _ _ _ Hin).
  split; [apply has_requirements_calls_prefix |]. split.
  - intros w' Hall. split; [by apply has_requirements_true |].
    by apply all_pass_calls.
  - intros pre r post w1 w2 -> Hall Hr. split.
    + by apply has_requirements_first_false with w1.
    + pose proof (has_requirement_calls r w1) as Hc. rewrite Hr in Hc. simpl in Hc.
      by rewrite Hc, (all_pass_calls _ _ _ Hall), <- app_assoc.
Qed.

End Order.

(** Every requirement the catalog names has its detection method: the
    "not implemented" branch of [has_requirement] is not taken for them. *)
Lemma catalog_requirements_implemented {lib : PyLib} fuel feature reqs r :
  dict_get features feature = Some reqs ->
  In r reqs ->
  exists method, _get_requirement_method fuel r = Some method.
Proof.
  assert (Hall : catalog_implemented fuel = true) by reflexivity.
  unfold catalog_implemented in Hall. rewrite forallb_forall in Hall.
  intros Hget Hin.
  assert (Hentry : In (feature, reqs) features).
  { clear Hall. revert Hget. generalize features.
    induction l as [| [k v] l IH]; simpl; [discriminate |].
    destruct (String.eqb_spec k feature) as [-> | _].
    - intros [= ->]. by left.
    - intros Hget. right. by apply IH. }
  specialize (Hall _ Hentry). simpl in Hall. rewrite forallb_forall in Hall.
  specialize (Hall _ Hin).
  destruct (_get_requirement_method fuel r) as [method |]; [eauto | discriminate].
Qed.

(** The diagnostics path asks about every requirement, also after one that
    failed: on the host with nothing installed, [get_failed_requirements]
    calls [has_requirement] for both requirements of [perseussdr]. *)
Example get_failed_requirements_asks_all :
  fst (get_failed_requirements (lib := plain_lib) 3 "perseussdr" bare_world)
  = Ok ["perseustest"; "nmux"]
  /\ calls (trace (snd (get_failed_requirements (lib := plain_lib) 3 "perseussdr" bare_world)))
     = ["perseustest"; "nmux"].
Proof. split; vm_compute; reflexivity. Qed.

(** C1 on the feature [perseussdr], on a host where both of its commands
    run. *)
Lemma is_available_and_witness :
  dict_get features "perseussdr" = Some ["perseustest"; "nmux"]
  /\ exists w', all_pass (lib := plain_lib) 3 ["perseustest"; "nmux"] ready_world w'.
Proof.
  split; [reflexivity |].
  apply (is_available_and (lib := plain_lib) 3 "perseussdr"
           ["perseustest"; "nmux"] ready_world eq_refl).
  vm_compute. reflexivity.
Defined.

(** C5, as stated, fails: on a host without [perseustest], the first
    requirement of [perseussdr] evaluates to false and [has_requirement]
    is never invoked on the second one, [nmux]. *)
Lemma is_available_skips_after_false :
  dict_get features "perseussdr" = Some ["perseustest"; "nmux"]
  /\ fst (has_requirement (lib := plain_lib) 3 "perseustest" bare_world) = Ok false
  /\ fst (is_available (lib := plain_lib) 3 "perseussdr" bare_world) = Ok false
  /\ calls (trace (snd (is_available (lib := plain_lib) 3 "perseussdr" bare_world)))
     = ["perseustest"].
Proof. repeat split; vm_compute; reflexivity. Qed.

(** C5 (amended) on the same run: the evaluation ends with the world the
    failing [has_requirement] left. *)
Lemma is_available_order_witness :
  dict_get features "perseussdr" = Some ["perseustest"; "nmux"]
  /\ is_available (lib := plain_lib) 3 "perseussdr" bare_world
     = (Ok false, snd (has_requirement (lib := plain_lib) 3 "perseustest" bare_world))
  /\ calls (trace (snd (has_requirement (lib := plain_lib) 3 "perseustest" bare_world)))
     = ([] ++ [] ++ ["perseustest"])%list.
Proof.
  split; [reflexivity |].
  destruct (is_available_order (lib := plain_lib) 3 "perseussdr"
              ["perseustest"; "nmux"] bare_world eq_refl) as (_ & _ & Hfalse).
  apply (Hfalse [] "perseustest" ["nmux"] bare_world
           (snd (has_requirement (lib := plain_lib) 3 "perseustest" bare_world))
           eq_refl (all_pass_nil 3 bare_world)).
  vm_compute. reflexivity.
Defined.

(** ** The process probe: [command_is_runnable] *)

(** Case on what the host answers to the launch in the goal. *)
Ltac case_popen :=
  match goal with
  | |- context [popen_at ?h ?n ?req] => destruct (popen_at h n req) as [e | process]
  end.

Lemma record_events_nil w : record_events [] w = w.
Proof. destruct w. unfold record_events. simpl. by rewrite app_nil_r. Qed.

Lemma record_events_app evs1 evs2 w :
  record_events evs2 (record_events evs1 w) = record_events (evs1 ++ evs2) w.
Proof. unfold record_events. simpl. by rewrite app_assoc. Qed.

Section Probe.

Context {lib : PyLib}.

Implicit Types (w : World) (command : string) (cmd : list string) (process : Process).

Lemma wait_loop_step budget command process n w :
  wait_loop (S budget) command process n w
  = match proc_wait process n 10 with
    | Some rc => (Ok rc, w)
    | None => wait_loop budget command process (S n)
                        (record_events (timeout_round command process) w)
    end.
Proof.
  simpl. rewrite bind_eq, try_except_eq, bind_eq. unfold Popen_wait.
  destruct (proc_wait process n 10) as [rc |]; [reflexivity |].
  simpl. unfold record_events, record_event, timeout_round. simpl.
  by rewrite <- app_assoc.
Qed.

(** The loop, started at wait number [n] with enough budget, goes round
    once per wait that times out and hands back the exit code. *)
Lemma wait_loop_exits k : forall budget command process n rc w,
  proc_wait process (n + k) 10 = Some rc ->
  (forall j, j < k -> proc_wait process (n + j) 10 = None) ->
  k < budget ->
  wait_loop budget command process n w
  = (Ok rc, record_events (timeout_rounds k command process) w).
Proof.
  induction k as [| k IH]; intros budget command process n rc w Hexit Hbefore Hlt;
    (destruct budget as [| budget]; [lia |]); rewrite wait_loop_step.
  - rewrite Nat.add_0_r in Hexit. rewrite Hexit. simpl. by rewrite record_events_nil.
  - rewrite <- (Nat.add_0_r n) at 1. rewrite (Hbefore 0) by lia.
    rewrite (IH budget command process (S n) rc); [| | | lia].
    + simpl. by rewrite record_events_app.
    + by replace (S n + k) with (n + S k) by lia.
    + intros j Hj. replace (S n + j) with (n + S j) by lia. apply Hbefore. lia.
Qed.

(** The loop never raises and never launches anything. *)
Lemma wait_loop_spawns budget : forall command process n w,
  spawns (trace (snd (wait_loop budget command process n w))) = spawns (trace w).
Proof.
  induction budget as [| budget IH]; intros command process n w; [reflexivity |].
  rewrite wait_loop_step. destruct (proc_wait process n 10); [reflexivity |].
  rewrite IH. unfold spawns. simpl. rewrite omap_app. simpl. apply app_nil_r.
Qed.

Lemma wait_loop_no_raise budget : forall command process n w e,
  fst (wait_loop budget command process n w) <> Raise e.
Proof.
  induction budget as [| budget IH]; intros command process n w e; [discriminate |].
  rewrite wait_loop_step. destruct (proc_wait process n 10); [discriminate | apply IH].
Qed.



Variable fuel : nat.

(** [command_is_runnable] up to the launch. *)
Lemma command_is_runnable_launch command expected cmd w :
  shlex_split command = inr cmd ->
  command_is_runnable fuel command expected w
  = match probe_launch cmd w with
    | inl FileNotFoundError => (Ok false, launched cmd w)
    | inl e => (Raise e, launched cmd w)
    | inr process =>
        match wait_loop fuel command process 0 (launched cmd w) with
        | (Ok rc, w') => (Ok (verdict expected rc), w')
        | (Raise e, w') =>
            match except_FileNotFoundError e with
            | Some h => h w'
            | None => (Raise e, w')
            end
        | (Unfinished, w') => (Unfinished, w')
        end
    end.
Proof.
  intros Hsplit. unfold command_is_runnable.
  rewrite bind_eq. unfold get_temporary_directory at 1, ask at 1.
  rewrite bind_eq, Hsplit. unfold lift at 1, ret at 1.
  rewrite bind_eq. unfold os_environ_copy at 1, ask at 1.
  rewrite try_except_eq, bind_eq.
  unfold subprocess_Popen. rewrite bind_eq. unfold emit at 1.
  rewrite bind_eq. unfold ask at 1. simpl.
  unfold probe_launch, probe_request, launched. simpl.
  destruct (popen_at _ _ _) as [e | process]; simpl.
  - by destruct e.
  - rewrite bind_eq. unfold probe_request, record_event, set_host. simpl.
    destruct (wait_loop _ _ _ _ _) as [[rc | e |] w']; try reflexivity.
    by destruct expected.
Qed.

(** C6: once the command line is split, if the launch raises
    [FileNotFoundError] [command_is_runnable] returns false; if the process
    is launched and exits with code [rc], it returns a boolean that is true
    if and only if [rc] is not 32512 when no expected code is given, and if
    and only if [rc] equals the expected code when one is given. *)
Theorem command_is_runnable_verdict command expected cmd w :
  shlex_split command = inr cmd ->
  (probe_launch cmd w = inl FileNotFoundError ->
   fst (command_is_runnable fuel command expected w) = Ok false)
  /\ (forall process k rc,
        probe_launch cmd w = inr process ->
        first_exit process k rc ->
        k < fuel ->
        exists b,
          fst (command_is_runnable fuel command expected w) = Ok b
          /\ match expected with
             | None => b = true <-> rc <> 32512%Z
             | Some code => b = true <-> rc = code
             end).
Proof.
  intros Hsplit. rewrite (command_is_runnable_launch _ _ _ _ Hsplit). split.
  - by intros ->.
  - intros process k rc -> [Hexit Hbefore] Hk.
    rewrite (wait_loop_exits k fuel command process 0 rc); [| done | done | done].
    simpl. eexists. split; [reflexivity |].
    destruct expected as [code |]; simpl.
    + split; [by intros ?%Z.eqb_eq | by intros ?%Z.eqb_eq].
    + rewrite negb_true_iff, Z.eqb_neq. done.
Qed.

(** The lines of the driver list are decoded and stripped without touching
    the world. *)
Lemma decode_lines_pure (lines : list string) w :
  snd (mapM (fun line => let! s := lift (bytes_decode line) in ret (str_strip s))
            lines w) = w.
Proof.
  revert w. induction lines as [| line lines IH]; intros w; [reflexivity |].
  simpl. rewrite bind_eq, bind_eq.
  destruct (bytes_decode line) as [e | s]; simpl; [reflexivity |].
  rewrite bind_eq. specialize (IH w).
  by destruct (mapM _ lines w) as [[l | e |] w']; simpl in *.
Qed.

Lemma check_connector_trace command required w :
  trace (snd (_check_connector command required w))
  = (trace w
     ++ [ EvPopen {| sp_args := [command; "--version"];
                     sp_stdin := Inherited;
                     sp_stdout := PIPE;
                     sp_stderr := Inherited;
                     sp_cwd := None;
                     sp_env := None |} ])%list.
Proof.
  unfold _check_connector.
  rewrite try_except_eq, bind_eq, subprocess_Popen_eq.
  case_popen; simpl; [by destruct e |].
  rewrite bind_eq. destruct (bytes_decode _) as [e | line]; simpl; [by destruct e |].
  destruct (re_match_literal_rest _ _) as [version |]; [| reflexivity].
  rewrite bind_eq. unfold Popen_wait.
  destruct (proc_wait process 0 1); simpl; [| reflexivity].
  destruct (LooseVersion_ge _ _) as [e | b]; simpl; [by destruct e | reflexivity].
Qed.

Lemma has_wsjtx_version_trace required w :
  trace (snd (_has_wsjtx_version required w))
  = (trace w
     ++ [ EvPopen {| sp_args := ["wsjtx_app_version"; "--version"];
                     sp_stdin := Inherited;
                     sp_stdout := PIPE;
                     sp_stderr := Inherited;
                     sp_cwd := None;
                     sp_env := None |} ])%list.
Proof.
  unfold _has_wsjtx_version.
  rewrite try_except_eq, bind_eq, subprocess_Popen_eq.
  case_popen; simpl; [by destruct e |].
  rewrite bind_eq. destruct (bytes_decode _) as [e | line]; simpl; [by destruct e |].
  destruct (re_match_literal_rest _ _) as [version |]; [| reflexivity].
  rewrite bind_eq. unfold Popen_wait.
  destruct (proc_wait process 0 1); simpl; [| reflexivity].
  destruct (LooseVersion_ge _ _) as [e | b]; simpl; [by destruct e | reflexivity].
Qed.

Lemma has_soapy_driver_trace driver w :
  trace (snd (_has_soapy_driver driver w))
  = (trace w
     ++ [ EvPopen {| sp_args := ["soapy_connector"; "--listdrivers"];
                     sp_stdin := Inherited;
                     sp_stdout := PIPE;
                     sp_stderr := DEVNULL;
                     sp_cwd := None;
                     sp_env := None |} ])%list.
Proof.
  unfold _has_soapy_driver.
  rewrite try_except_eq, bind_eq, subprocess_Popen_eq.
  case_popen; simpl; [by destruct e |].
  rewrite bind_eq.
  match goal with
  | |- context [mapM ?f ?l ?w0] =>
      pose proof (decode_lines_pure l w0) as Hpure;
      destruct (mapM f l w0) as [[drivers | e |] w'] eqn:Hmap
  end; simpl in Hpure; subst; simpl; [| by destruct e | reflexivity].
  rewrite bind_eq. unfold Popen_wait.
  by destruct (proc_wait process 0 1).
Qed.

Lemma spawns_app t1 t2 : spawns (t1 ++ t2) = (spawns t1 ++ spawns t2)%list.
Proof. unfold spawns. apply omap_app. Qed.

(** C8 (amended): every subprocess [command_is_runnable] spawns gets an
    environment without [DISPLAY] and has its standard input, output and
    error redirected to the null device.  The versioned-connector, WSJT-X
    version and driver-enumeration probes each spawn one subprocess, whose
    standard output is captured through a pipe. *)
Theorem probe_spawn_requests command expected required driver w :
  (exists new,
     spawns (trace (snd (command_is_runnable fuel command expected w)))
     = (spawns (trace w) ++ new)%list
     /\ Forall (fun req =>
                  sp_stdin req = DEVNULL /\ sp_stdout req = DEVNULL
                  /\ sp_stderr req = DEVNULL
                  /\ exists env, sp_env req = Some env /\ env !! "DISPLAY" = None)
               new)
  /\ (exists req,
        spawns (trace (snd (_check_connector command required w)))
        = (spawns (trace w) ++ [req])%list
        /\ sp_args req = [command; "--version"] /\ sp_stdout req = PIPE)
  /\ (exists req,
        spawns (trace (snd (_has_wsjtx_version required w)))
        = (spawns (trace w) ++ [req])%list
        /\ sp_args req = ["wsjtx_app_version"; "--version"] /\ sp_stdout req = PIPE)
  /\ (exists req,
        spawns (trace (snd (_has_soapy_driver driver w)))
        = (spawns (trace w) ++ [req])%list
        /\ sp_args req = ["soapy_connector"; "--listdrivers"] /\ sp_stdout req = PIPE).
Proof.
  split; [| split; [| split]].
  - destruct (shlex_split command) as [e | cmd] eqn:Hsplit.
    + exists []. split; [| constructor].
      unfold command_is_runnable. rewrite bind_eq. unfold get_temporary_directory, ask.
      rewrite bind_eq, Hsplit. simpl. by rewrite app_nil_r.
    + exists [probe_request cmd w]. split.
      * rewrite (command_is_runnable_launch _ _ _ _ Hsplit).
        assert (Hl : spawns (trace (launched cmd w))
                     = (spawns (trace w) ++ [probe_request cmd w])%list).
        { unfold launched. simpl. by rewrite spawns_app. }
        destruct (probe_launch cmd w) as [e | process]; [by destruct e |].
        pose proof (wait_loop_spawns fuel command process 0 (launched cmd w)) as Hs.
        pose proof (wait_loop_no_raise fuel command process 0 (launched cmd w)) as Hr.
        destruct (wait_loop _ _ _ _ _) as [[rc | e |] w']; simpl in *;
          [congruence | by destruct (Hr e) | congruence].
      * constructor; [| constructor]. simpl. repeat split.
        eexists. split; [reflexivity |]. apply lookup_delete_eq.
  - eexists. rewrite check_connector_trace, spawns_app. simpl. done.
  - eexists. rewrite has_wsjtx_version_trace, spawns_app. simpl. done.
  - eexists. rewrite has_soapy_driver_trace, spawns_app. simpl. done.
Qed.

End Probe.

(** C6 on [nmux --help], on a host where the command runs and exits with
    code 0. *)
Lemma command_is_runnable_verdict_witness :
  shlex_split (PyLib := plain_lib) "nmux --help" = inr ["nmux"; "--help"]
  /\ probe_launch ["nmux"; "--help"] ready_world
     = inr (prompt_process ["nmux"; "--help"] [] 0)
  /\ first_exit (prompt_process ["nmux"; "--help"] [] 0) 0 0
  /\ 0 < 3
  /\ exists b,
       fst (command_is_runnable (lib := plain_lib) 3 "nmux --help" None ready_world) = Ok b
       /\ (b = true <-> 0%Z <> 32512%Z).
Proof.
  assert (Hexit : first_exit (prompt_process ["nmux"; "--help"] [] 0) 0 0).
  { split; [reflexivity | intros j Hj; lia]. }
  split; [reflexivity |]. split; [reflexivity |]. split; [exact Hexit |].
  split; [lia |].
  destruct (command_is_runnable_verdict (lib := plain_lib) 3 "nmux --help" None
              ["nmux"; "--help"] ready_world eq_refl) as [_ Hrun].
  apply (Hrun (prompt_process ["nmux"; "--help"] [] 0) 0 0%Z eq_refl Hexit). lia.
Defined.

(** C8, as stated, fails for the versioned-connector probe: the subprocess
    that checking [rtl_sdr] spawns inherits the caller's environment, with
    [DISPLAY] in it, and the caller's standard input and standard error. *)
Lemma connector_probe_not_sanitized :
  spawns (trace (snd (is_available (lib := plain_lib) 3 "rtl_sdr" bare_world)))
  = [ {| sp_args := ["rtl_connector"; "--version"];
         sp_stdin := Inherited;
         sp_stdout := PIPE;
         sp_stderr := Inherited;
         sp_cwd := None;
         sp_env := None |} ]
  /\ child_environment (environ_at (host bare_world) 0)
       {| sp_args := ["rtl_connector"; "--version"];
          sp_stdin := Inherited;
          sp_stdout := PIPE;
          sp_stderr := Inherited;
          sp_cwd := None;
          sp_env := None |} !! "DISPLAY" = Some ":0".
Proof. split; vm_compute; reflexivity. Qed.

(** ** Termination of the wait loop *)

Section Termination.

Context {lib : PyLib}.


End Termination.


(** C2 fails on the code: checking [rtl_sdr], a feature of the catalog, on
    a host whose [rtl_connector] prints its version line and is still alive
    a second later, raises [subprocess.TimeoutExpired] out of
    [is_available]. *)
Lemma is_available_raises_TimeoutExpired :
  dict_get features "rtl_sdr" = Some ["rtl_connector"]
  /\ fst (is_available (lib := plain_lib) 3 "rtl_sdr" lingering_world)
     = Raise TimeoutExpired.
Proof. split; vm_compute; reflexivity. Qed.

(** ** Caching of detection results *)

Section Caching.

Context {lib : PyLib}.
Variable fuel : nat.

Implicit Types (w : World) (r : string).

(** C4: [set(name, value)] stores [value] with expiry the current time plus
    [cachetime], which is exactly 2 hours, in place of any entry the name
    had.  So when [has_requirement] misses the cache, calls the method and
    gets [v], it returns [v] and caches it for 2 hours from the time it is
    stored; a later call made with that cache while the clock is not past
    the expiry returns the same [v] and does nothing but consult the clock
    (the method is not invoked again); a call made once the expiry has
    passed invokes the method again, then stores and returns what it gives
    this time. *)
Theorem has_requirement_cached r method w v wm :
  _get_requirement_method fuel r = Some method ->
  fst (FeatureCache_has r w) = Ok false ->
  method (record_event (EvMethod ("has_" +:+ r))
            (record_event (EvHasRequirement r) (snd (FeatureCache_has r w))))
  = (Ok v, wm) ->
  cachetime = (2 * 60 * 60 * 1000000)%Z
  /\ (forall name value w0,
        cache (snd (FeatureCache_set name value w0))
        = <[name := {| value := value; valid_to := (now w0 + cachetime)%Z |}]> (cache w0))
  /\ has_requirement fuel r w = (Ok v, snd (FeatureCache_set r v wm))
  /\ cache (snd (FeatureCache_set r v wm))
     = <[r := {| value := v; valid_to := (now wm + cachetime)%Z |}]> (cache w)
  /\ (forall w2,
        cache w2 = cache (snd (FeatureCache_set r v wm)) ->
        ((now w2 <= now wm + cachetime)%Z ->
         has_requirement fuel r w2
         = (Ok v, set_host (tick (host w2)) (record_event (EvHasRequirement r) w2)))
        /\ ((now wm + cachetime < now w2)%Z ->
            has_requirement fuel r w2
            = (let! result := method in
               FeatureCache_set r result ;;
               ret result)
                (record_event (EvMethod ("has_" +:+ r))
                   (record_event (EvHasRequirement r) (set_host (tick (host w2)) w2))))).
Proof.
  intros Hm Hmiss Hrun.
  assert (Hcache : cache wm = cache w).
  { pose proof (requirement_method_probes fuel r method
                  (record_event (EvMethod ("has_" +:+ r))
                     (record_event (EvHasRequirement r) (snd (FeatureCache_has r w))))
                  Hm) as [Hc _].
    rewrite Hrun in Hc. simpl in Hc. rewrite Hc.
    by destruct (FeatureCache_has_frame r w) as [-> _]. }
  split; [reflexivity |]. split; [reflexivity |]. split; [| split].
  - rewrite (has_requirement_miss fuel r w Hmiss). unfold probe_and_store.
    rewrite Hm, 2!bind_eq. unfold emit at 1. by rewrite Hrun.
  - rewrite FeatureCache_set_eq. simpl. by rewrite Hcache.
  - intros w2 Hc2.
    assert (Hin : cache w2 !! r
                  = Some {| value := v; valid_to := (now wm + cachetime)%Z |}).
    { rewrite Hc2, FeatureCache_set_eq. simpl. apply lookup_insert_eq. }
    split.
    + intros Hnow. by rewrite (has_requirement_hit fuel r w2 _ Hin Hnow).
    + intros Hnow.
      assert (Hhas : FeatureCache_has r w2 = (Ok false, set_host (tick (host w2)) w2)).
      { rewrite (FeatureCache_has_present r w2 _ Hin). simpl.
        by destruct (Z.ltb_spec (now wm + cachetime) (now w2)); [| lia]. }
      rewrite (has_requirement_miss fuel r w2); [| by rewrite Hhas].
      rewrite Hhas. unfold probe_and_store. rewrite Hm. simpl.
      by rewrite !bind_eq.
Qed.

End Caching.

(** C4 on [nmux], with a strategy that says true the first time it is
    invoked and false the next: the call at time 0 probes and returns
    true; the call one hour later returns true again and invokes nothing;
    the call three hours later probes again and returns false. *)
Lemma has_requirement_cached_witness :
  _get_requirement_method (lib := plain_lib) 3 "nmux" = Some (has_nmux (lib := plain_lib) 3)
  /\ fst (FeatureCache_has "nmux" flaky_world) = Ok false
  /\ fst (has_requirement (lib := plain_lib) 3 "nmux" flaky_world) = Ok true
  /\ fst (has_requirement (lib := plain_lib) 3 "nmux"
            (snd (has_requirement (lib := plain_lib) 3 "nmux" flaky_world)))
     = Ok true
  /\ invoked (trace (snd (has_requirement (lib := plain_lib) 3 "nmux"
                       (snd (has_requirement (lib := plain_lib) 3 "nmux" flaky_world)))))
     = ["has_nmux"]
  /\ fst (has_requirement (lib := plain_lib) 3 "nmux"
            (snd (has_requirement (lib := plain_lib) 3 "nmux"
               (snd (has_requirement (lib := plain_lib) 3 "nmux" flaky_world)))))
     = Ok false
  /\ invoked (trace (snd (has_requirement (lib := plain_lib) 3 "nmux"
                       (snd (has_requirement (lib := plain_lib) 3 "nmux"
                          (snd (has_requirement (lib := plain_lib) 3 "nmux" flaky_world)))))))
     = ["has_nmux"; "has_nmux"].
Proof.
  destruct (has_requirement_cached (lib := plain_lib) 3 "nmux" (has_nmux (lib := plain_lib) 3) flaky_world true
              (snd (has_nmux (lib := plain_lib) 3
                      (record_event (EvMethod "has_nmux")
                         (record_event (EvHasRequirement "nmux") flaky_world))))
              eq_refl eq_refl eq_refl)
    as (_ & _ & Hfirst & _ & Hlater).
  split; [reflexivity |]. split; [reflexivity |].
  rewrite Hfirst. cbn [fst snd]. split; [reflexivity |].
  destruct (Hlater _ eq_refl) as [Hhit _].
  rewrite Hhit by (vm_compute; discriminate). cbn [fst snd].
  split; [reflexivity |]. split; [vm_compute; reflexivity |].
  split; vm_compute; reflexivity.
Defined.


(** ** Requirements nobody detects *)

Section Unimplemented.

Context {lib : PyLib}.
Variable fuel : nat.

Implicit Types (w : World) (r : string).

Lemma probe_and_store_method r method w :
  _get_requirement_method fuel r = Some method ->
  probe_and_store fuel r w
  = match method (record_event (EvMethod ("has_" +:+ r)) w) with
    | (Ok b, wm) => (Ok b, snd (FeatureCache_set r b wm))
    | (Raise e, wm) => (Raise e, wm)
    | (Unfinished, wm) => (Unfinished, wm)
    end.
Proof.
  intros Hm. unfold probe_and_store. rewrite Hm.
  unfold bind, emit. by destruct (method _) as [[b | e |] wm].
Qed.

(** With no true value cached for the names nobody detects, asking about
    one of them gives false. *)
Lemma has_requirement_no_method_false r w :
  _get_requirement_method fuel r = None ->
  unimplemented_false fuel w ->
  fst (has_requirement fuel r w) = Ok false.
Proof.
  intros Hnone Hinv.
  destruct (FeatureCache_has_cases r w) as [(entry & Hin & Hnow) | Hmiss].
  - rewrite (has_requirement_hit fuel r w entry Hin Hnow). simpl.
    by rewrite (Hinv r entry Hnone Hin).
  - destruct (has_requirement_no_method fuel r w Hnone) as [_ Hrun].
    destruct (Hrun Hmiss) as (w' & -> & _). reflexivity.
Qed.

(** Asking about any requirement keeps the cache free of true values for
    the names nobody detects. *)
Lemma has_requirement_keeps_unimplemented_false r' w :
  unimplemented_false fuel w ->
  unimplemented_false fuel (snd (has_requirement fuel r' w)).
Proof.
  intros Hinv.
  destruct (FeatureCache_has_cases r' w) as [(entry & Hin & Hnow) | Hmiss].
  { by rewrite (has_requirement_hit fuel r' w entry Hin Hnow). }
  destruct (FeatureCache_has_frame r' w) as [Hc _].
  rewrite (has_requirement_miss fuel r' w Hmiss).
  destruct (_get_requirement_method fuel r') as [method |] eqn:Hm.
  - rewrite (probe_and_store_method r' method _ Hm).
    pose proof (requirement_method_probes fuel r' method
                  (record_event (EvMethod ("has_" +:+ r'))
                     (record_event (EvHasRequirement r') (snd (FeatureCache_has r' w))))
                  Hm) as [Hcm _].
    destruct (method _) as [[b | e |] wm]; simpl in *;
      intros r entry Hnone; rewrite Hcm, Hc; try exact (Hinv r entry Hnone).
    simpl. rewrite lookup_insert_ne; [exact (Hinv r entry Hnone) | congruence].
  - unfold probe_and_store. rewrite Hm.
    intros r entry Hnone. simpl. rewrite Hc.
    destruct (decide (r' = r)) as [-> | Hne].
    + rewrite lookup_insert_eq. by intros [= <-].
    + rewrite lookup_insert_ne by done. exact (Hinv r entry Hnone).
Qed.

(** C3 (amended): for a requirement name with no [has_<name>] method,
    [has_requirement] never raises.  When the cache does not answer for the
    name (no entry, or an expired one), it returns false, logs one error
    naming the requirement and stores false in the cache, valid for
    [cachetime] from the time it is stored.  When the cache answers, it
    returns the cached value and neither logs nor stores anything: the
    world only gets the entry into [has_requirement] and the clock read.
    In every state whose cache holds no true value for such names, which
    the start-up state is and which every call of [has_requirement] leaves
    so, it returns false. *)
Theorem has_requirement_unimplemented r w :
  _get_requirement_method fuel r = None ->
  (exists b w', has_requirement fuel r w = (Ok b, w'))
  /\ (fst (FeatureCache_has r w) = Ok false ->
      exists w',
        has_requirement fuel r w = (Ok false, w')
        /\ trace w'
           = (trace w
              ++ [ EvHasRequirement r;
                   EvLog ERROR ("detection of requirement " +:+ r
                                +:+ " not implement. please fix in code!") ])%list
        /\ cache w'
           = <[r := {| value := false;
                       valid_to := (now (snd (FeatureCache_has r w)) + cachetime)%Z |}]>
               (cache w))
  /\ (forall entry,
        cache w !! r = Some entry ->
        (now w <= valid_to entry)%Z ->
        has_requirement fuel r w
        = (Ok (value entry),
           set_host (tick (host w)) (record_event (EvHasRequirement r) w)))
  /\ (unimplemented_false fuel w -> fst (has_requirement fuel r w) = Ok false)
  /\ (forall r',
        unimplemented_false fuel w ->
        unimplemented_false fuel (snd (has_requirement fuel r' w)))
  /\ (forall h, unimplemented_false fuel (initial_world h)).
Proof.
  intros Hnone.
  destruct (has_requirement_no_method fuel r w Hnone) as [Htotal Hmiss].
  split; [exact Htotal |]. split; [exact Hmiss |]. split; [| split; [| split]].
  - intros entry Hin Hnow. by apply has_requirement_hit.
  - by apply has_requirement_no_method_false.
  - intros r'. apply has_requirement_keeps_unimplemented_false.
  - intros h r0 entry _ Hin. simpl in Hin. by rewrite lookup_empty in Hin.
Qed.

End Unimplemented.

(** C3 (amended) on the name [foo], which no method detects: asked about on
    the start-up world and again right after, the answer is false both
    times. *)
Lemma has_requirement_unimplemented_witness :
  _get_requirement_method (lib := plain_lib) 3 "foo" = None
  /\ unimplemented_false (lib := plain_lib) 3 bare_world
  /\ fst (has_requirement (lib := plain_lib) 3 "foo" bare_world) = Ok false
  /\ unimplemented_false (lib := plain_lib) 3 once_asked_world
  /\ fst (has_requirement (lib := plain_lib) 3 "foo" once_asked_world) = Ok false.
Proof.
  destruct (has_requirement_unimplemented (lib := plain_lib) 3 "foo" bare_world eq_refl)
    as (_ & _ & _ & Hfalse & Hkeep & Hstart).
  destruct (has_requirement_unimplemented (lib := plain_lib) 3 "foo" once_asked_world
              eq_refl) as (_ & _ & _ & Hfalse' & _).
  split; [reflexivity |]. split; [apply Hstart |].
  split; [apply Hfalse, Hstart |].
  split; [apply (Hkeep "foo"), Hstart |].
  apply Hfalse', (Hkeep "foo"), Hstart.
Defined.

(** C3, as stated, fails on a repeated call: asked again about [foo] within
    the two hours, [has_requirement] returns the cached false, logs no
    error (the log still has the one record of the first call) and stores
    nothing (the cache, expiry included, is as the first call left it). *)
Lemma has_requirement_unimplemented_cached_call :
  _get_requirement_method (lib := plain_lib) 3 "foo" = None
  /\ logged ERROR (trace once_asked_world)
     = ["detection of requirement foo not implement. please fix in code!"]
  /\ fst (has_requirement (lib := plain_lib) 3 "foo" once_asked_world) = Ok false
  /\ logged ERROR (trace (snd (has_requirement (lib := plain_lib) 3 "foo" once_asked_world)))
     = ["detection of requirement foo not implement. please fix in code!"]
  /\ cache (snd (has_requirement (lib := plain_lib) 3 "foo" once_asked_world))
     = cache once_asked_world.
Proof. repeat split; vm_compute; reflexivity. Qed.

(** * Further properties of the evaluator *)

(** ** What one [has_requirement] call does to the cache *)

Section CacheEffect.

Context {lib : PyLib}.
Variable fuel : nat.

Implicit Types (w : World) (r : string) (reqs : list string).

(** The three ways a call can go: answered by the cache, probed and
    stored, or broken off by the method with the cache as it was. *)
Lemma has_requirement_cache_cases r w :
  (exists entry,
     cache w !! r = Some entry
     /\ fst (has_requirement fuel r w) = Ok (value entry)
     /\ cache (snd (has_requirement fuel r w)) = cache w)
  \/ (exists b t,
        fst (has_requirement fuel r w) = Ok b
        /\ cache (snd (has_requirement fuel r w))
           = <[r := {| value := b; valid_to := t |}]> (cache w))
  \/ ((forall b, fst (has_requirement fuel r w) <> Ok b)
      /\ cache (snd (has_requirement fuel r w)) = cache w).
Proof.
  destruct (FeatureCache_has_cases r w) as [(entry & Hin & Hnow) | Hmiss].
  - left. exists entry. by rewrite (has_requirement_hit fuel r w entry Hin Hnow).
  - right. rewrite (has_requirement_miss fuel r w Hmiss).
    destruct (FeatureCache_has_frame r w) as [Hc _].
    destruct (_get_requirement_method fuel r) as [method |] eqn:Hm.
    + rewrite (probe_and_store_method fuel r method _ Hm).
      pose proof (requirement_method_probes fuel r method
                    (record_event (EvMethod ("has_" +:+ r))
                       (record_event (EvHasRequirement r) (snd (FeatureCache_has r w))))
                    Hm) as [Hcm _].
      destruct (method _) as [[b | e |] wm]; simpl in *.
      * left. eexists b, _. split; [reflexivity |]. by rewrite Hcm, Hc.
      * right. split; [discriminate | by rewrite Hcm, Hc].
      * right. split; [discriminate | by rewrite Hcm, Hc].
    + unfold probe_and_store. rewrite Hm.
      left. eexists false, _. split; [reflexivity |]. simpl. by rewrite Hc.
Qed.

(** X1: whatever boolean [has_requirement] returns for a requirement is
    what the cache holds for that requirement afterwards. *)
Theorem has_requirement_result_cached r w b w' :
  has_requirement fuel r w = (Ok b, w') ->
  exists entry, cache w' !! r = Some entry /\ value entry = b.
Proof.
  intros Hrun.
  destruct (has_requirement_cache_cases r w)
    as [(entry & Hin & Hres & Hc) | [(b' & t & Hres & Hc) | [Hno _]]];
    rewrite Hrun in *; simpl in *.
  - exists entry. rewrite Hc. split; [exact Hin | congruence].
  - eexists. rewrite Hc, lookup_insert_eq. split; [reflexivity |]. simpl. congruence.
  - by destruct (Hno b).
Qed.


Lemma has_requirement_other_keys r r' w :
  r' <> r ->
  cache (snd (has_requirement fuel r w)) !! r' = cache w !! r'.
Proof.
  intros Hne.
  destruct (has_requirement_cache_cases r w)
    as [(entry & _ & _ & Hc) | [(b' & t & _ & Hc) | [_ Hc]]]; rewrite Hc; try done.
  by apply lookup_insert_ne.
Qed.

Lemma has_requirements_other_keys reqs r' w :
  ~ In r' reqs ->
  cache (snd (has_requirements fuel reqs w)) !! r' = cache w !! r'.
Proof.
  revert w. induction reqs as [| r rest IH]; intros w Hnot; [reflexivity |].
  rewrite has_requirements_cons.
  assert (Hr : cache (snd (has_requirement fuel r w)) !! r' = cache w !! r').
  { apply has_requirement_other_keys. intros ->. apply Hnot. by left. }
  destruct (has_requirement fuel r w) as [[[|] | e |] w1]; simpl in *; try exact Hr.
  rewrite IH; [exact Hr |]. intros Hin. apply Hnot. by right.
Qed.

(** X3: evaluating a feature writes only the cache entries of that
    feature's own requirements: the entry of every other requirement
    name is as it was, whatever the evaluation returns or raises. *)
Theorem is_available_other_keys feature reqs r' w :
  dict_get features feature = Some reqs ->
  ~ In r' reqs ->
  cache (snd (is_available fuel feature w)) !! r' = cache w !! r'.
Proof.
  intros Hin Hnot. rewrite (is_available_known fuel _ _ _ Hin).
  by apply has_requirements_other_keys.
Qed.

(** X4: no detection method of the class touches the cache or re-enters
    [has_requirement]: run from any world, each only lets the host answer
    some more interactions and adds log records, launches and kills to the
    trace. *)
Theorem detection_methods_only_probe :
  Forall (fun entry => forall w, probe_steps w (snd (snd entry w))) (methods fuel).
Proof.
  exact (preserves_methods probe_steps probe_steps_refl probe_steps_trans
           probe_steps_tick probe_steps_event fuel).
Qed.

(** X5: when every requirement of a list has a cache entry that no reading
    of the clock is past, [has_requirements] answers from the cache alone:
    it returns the conjunction of the cached booleans, invokes no detection
    method, launches no process and leaves the cache as it is. *)
Theorem has_requirements_from_cache reqs w :
  Forall (always_valid w) reqs ->
  exists w',
    has_requirements fuel reqs w = (Ok (forallb (cached w) reqs), w')
    /\ cache w' = cache w
    /\ invoked (trace w') = invoked (trace w)
    /\ spawns (trace w') = spawns (trace w).
Proof.
  revert w. induction reqs as [| r rest IH]; intros w Hvalid.
  - exists w. by repeat split.
  - apply Forall_cons in Hvalid as [(entry & Hin & Hclock) Hrest].
    rewrite has_requirements_cons.
    rewrite (has_requirement_hit fuel r w entry Hin (Hclock _)).
    set (w1 := set_host (tick (host w)) (record_event (EvHasRequirement r) w)).
    assert (Hcached : cached w r = value entry) by (unfold cached; by rewrite Hin).
    assert (Ht1 : invoked (trace w1) = invoked (trace w)
                  /\ spawns (trace w1) = spawns (trace w)).
    { unfold w1, invoked, spawns. simpl. rewrite !omap_app. simpl.
      by rewrite !app_nil_r. }
    simpl forallb. rewrite Hcached. destruct (value entry).
    + destruct (IH w1) as (w' & Hrun & Hc & Hi & Hs).
      { eapply Forall_impl; [exact Hrest |]. intros r' (e' & Hin' & Hclock').
        exists e'. split; [exact Hin' | exact Hclock']. }
      exists w'. rewrite Hrun. destruct Ht1 as [Hi1 Hs1].
      split; [reflexivity | split; [exact Hc | split; congruence]].
    + exists w1. destruct Ht1 as [Hi1 Hs1]. by repeat split.
Qed.

End CacheEffect.

(** X1 on [nmux], on the host where every command runs. *)
Lemma has_requirement_result_cached_witness :
  has_requirement (lib := plain_lib) 3 "nmux" ready_world
  = (Ok true, snd (has_requirement (lib := plain_lib) 3 "nmux" ready_world))
  /\ exists entry,
       cache (snd (has_requirement (lib := plain_lib) 3 "nmux" ready_world)) !! "nmux"
       = Some entry
       /\ value entry = true.
Proof.
  assert (Hrun : has_requirement (lib := plain_lib) 3 "nmux" ready_world
                 = (Ok true, snd (has_requirement (lib := plain_lib) 3 "nmux" ready_world))).
  { vm_compute. reflexivity. }
  split; [exact Hrun |].
  exact (has_requirement_result_cached (lib := plain_lib) 3 "nmux" ready_world true _ Hrun).
Defined.


(** X3 on [perseussdr] and the entry of [csdr]. *)
Lemma is_available_other_keys_witness :
  dict_get features "perseussdr" = Some ["perseustest"; "nmux"]
  /\ ~ In "csdr" ["perseustest"; "nmux"]
  /\ cache (snd (is_available (lib := plain_lib) 3 "perseussdr" boundary_world)) !! "csdr"
     = cache boundary_world !! "csdr".
Proof.
  assert (Hnot : ~ In "csdr" ["perseustest"; "nmux"]).
  { intros [H | [H | []]]; discriminate. }
  split; [reflexivity |]. split; [exact Hnot |].
  exact (is_available_other_keys (lib := plain_lib) 3 "perseussdr"
           ["perseustest"; "nmux"] "csdr" boundary_world eq_refl Hnot).
Defined.

Lemma warm_world_always_valid :
  Forall (always_valid warm_world) ["perseustest"; "nmux"].
Proof.
  repeat apply Forall_cons_2; [| | apply Forall_nil_2].
  - exists {| value := true; valid_to := 100 |}. split; [reflexivity |].
    intros n. simpl. lia.
  - exists {| value := false; valid_to := 100 |}. split; [reflexivity |].
    intros n. simpl. lia.
Defined.

(** X5 on the two requirements of [perseussdr], both cached: true and
    false give false, and nothing is launched. *)
Lemma has_requirements_from_cache_witness :
  Forall (always_valid warm_world) ["perseustest"; "nmux"]
  /\ exists w',
       has_requirements (lib := plain_lib) 3 ["perseustest"; "nmux"] warm_world
       = (Ok (forallb (cached warm_world) ["perseustest"; "nmux"]), w')
       /\ cache w' = cache warm_world
       /\ invoked (trace w') = invoked (trace warm_world)
       /\ spawns (trace w') = spawns (trace warm_world).
Proof.
  split; [exact warm_world_always_valid |].
  exact (has_requirements_from_cache (lib := plain_lib) 3 ["perseustest"; "nmux"]
           warm_world warm_world_always_valid).
Defined.

(** ** Diagnostics: [get_failed_requirements] *)

Section Diagnostics.

Context {lib : PyLib}.
Variable fuel : nat.

Implicit Types (w : World) (r : string) (reqs : list string) (bs : list bool).

Lemma answers_calls reqs w bs w' :
  answers fuel reqs w bs w' -> calls (trace w') = (calls (trace w) ++ reqs)%list.
Proof.
  induction 1 as [| r rest b bs w w1 w2 Hr _ IH]; [by rewrite app_nil_r |].
  rewrite IH. pose proof (has_requirement_calls fuel r w) as Hc.
  rewrite Hr in Hc. simpl in Hc. by rewrite Hc, <- app_assoc.
Qed.

Lemma mapM_answers reqs w bs w' :
  answers fuel reqs w bs w' ->
  mapM (fun req => let! ok := has_requirement fuel req in ret (req, ok)) reqs w
  = (Ok (zip reqs bs), w').
Proof.
  induction 1 as [| r rest b bs w w1 w2 Hr _ IH]; [reflexivity |].
  simpl. rewrite !bind_eq, Hr. simpl. rewrite bind_eq, IH. reflexivity.
Qed.

Lemma mapM_answers_inv reqs : forall w l w',
  mapM (fun req => let! ok := has_requirement fuel req in ret (req, ok)) reqs w
  = (Ok l, w') ->
  exists bs, l = zip reqs bs /\ answers fuel reqs w bs w'.
Proof.
  induction reqs as [| r rest IH]; intros w l w' Hrun; simpl in Hrun.
  - injection Hrun as <- <-. exists []. split; [reflexivity | constructor].
  - rewrite !bind_eq in Hrun.
    destruct (has_requirement fuel r w) as [[b | e |] w1] eqn:Hr; try discriminate.
    simpl in Hrun. rewrite bind_eq in Hrun.
    destruct (mapM _ rest w1) as [[l' | e |] w2] eqn:Hrest; try discriminate.
    injection Hrun as <- <-.
    destruct (IH _ _ _ Hrest) as (bs & -> & Hans).
    exists (b :: bs). split; [reflexivity |]. econstructor; eauto.
Qed.

Lemma failed_zip reqs w bs w' :
  answers fuel reqs w bs w' ->
  map fst (filter (fun p => negb (snd p)) (zip reqs bs)) = failed reqs bs.
Proof.
  induction 1 as [| r rest b bs w w1 w2 _ _ IH]; [reflexivity |].
  simpl. destruct b; simpl.
  - exact IH.
  - by rewrite IH.
Qed.

Lemma get_failed_requirements_known feature reqs w :
  dict_get features feature = Some reqs ->
  get_failed_requirements fuel feature w
  = match mapM (fun req => let! ok := has_requirement fuel req in ret (req, ok)) reqs w with
    | (Ok results, w') => (Ok (map fst (filter (fun p => negb (snd p)) results)), w')
    | (Raise e, w') => (Raise e, w')
    | (Unfinished, w') => (Unfinished, w')
    end.
Proof.
  intros Hin. unfold get_failed_requirements, get_requirements. rewrite Hin.
  rewrite bind_eq. unfold ret at 1. rewrite bind_eq.
  by destruct (mapM _ reqs w) as [[l | e |] w1].
Qed.

(** X6: for a feature of the catalog, [get_failed_requirements] calls
    [has_requirement] on every requirement of the feature, in the declared
    order and also after one that failed, and returns, in that order,
    exactly the requirements for which the call returned false. *)
Theorem get_failed_requirements_spec feature reqs w bs w' :
  dict_get features feature = Some reqs ->
  answers fuel reqs w bs w' ->
  get_failed_requirements fuel feature w = (Ok (failed reqs bs), w')
  /\ calls (trace w') = (calls (trace w) ++ reqs)%list.
Proof.
  intros Hin Hans. split; [| by apply answers_calls with bs].
  rewrite (get_failed_requirements_known _ _ _ Hin), (mapM_answers _ _ _ _ Hans).
  by rewrite (failed_zip _ _ _ _ Hans).
Qed.

Lemma all_pass_answers reqs w w' :
  all_pass fuel reqs w w' ->
  exists bs, answers fuel reqs w bs w' /\ failed reqs bs = [].
Proof.
  induction 1 as [| r rest w w1 w2 Hr _ (bs & Hans & Hfailed)].
  - exists []. split; [constructor | reflexivity].
  - exists (true :: bs). split; [econstructor; eauto | exact Hfailed].
Qed.

Lemma answers_all_pass reqs w bs w' :
  answers fuel reqs w bs w' -> failed reqs bs = [] -> all_pass fuel reqs w w'.
Proof.
  induction 1 as [| r rest b bs w w1 w2 Hr _ IH]; [constructor |].
  simpl. destruct b; [| discriminate]. intros Hf. econstructor; eauto.
Qed.

(** X7: evaluated from the same world, [is_available] returns true for a
    feature of the catalog if and only if [get_failed_requirements] returns
    the empty list for it. *)
Theorem is_available_iff_none_failed feature reqs w :
  dict_get features feature = Some reqs ->
  fst (is_available fuel feature w) = Ok true
  <-> fst (get_failed_requirements fuel feature w) = Ok [].
Proof.
  intros Hin. rewrite (is_available_known fuel _ _ _ Hin). split.
  - intros Htrue.
    destruct (has_requirements fuel reqs w) as [res w'] eqn:Hrun.
    simpl in Htrue. subst res. apply has_requirements_true in Hrun.
    destruct (all_pass_answers _ _ _ Hrun) as (bs & Hans & Hfailed).
    rewrite (get_failed_requirements_known _ _ _ Hin), (mapM_answers _ _ _ _ Hans).
    simpl. by rewrite (failed_zip _ _ _ _ Hans), Hfailed.
  - rewrite (get_failed_requirements_known _ _ _ Hin).
    destruct (mapM _ reqs w) as [[l | e |] w'] eqn:Hmap; try discriminate.
    simpl. intros [= Hnil].
    destruct (mapM_answers_inv _ _ _ _ Hmap) as (bs & -> & Hans).
    rewrite (failed_zip _ _ _ _ Hans) in Hnil.
    pose proof (answers_all_pass _ _ _ _ Hans Hnil) as Hall.
    apply has_requirements_true in Hall. by rewrite Hall.
Qed.

(** X8: for a name that is not in the catalog, [is_available] and
    [get_failed_requirements] both raise [UnknownFeatureException] with the
    message naming the feature, and do nothing else: no probe is run and
    nothing is cached or logged. *)
Theorem unknown_feature_raises feature w :
  dict_get features feature = None ->
  is_available fuel feature w
  = (Raise (UnknownFeatureException
              ("Feature " +:+ dquote +:+ feature +:+ dquote +:+ " is not known.")), w)
  /\ get_failed_requirements fuel feature w
     = (Raise (UnknownFeatureException
                 ("Feature " +:+ dquote +:+ feature +:+ dquote +:+ " is not known.")), w).
Proof.
  intros Hout. split.
  - by apply is_available_unknown.
  - unfold get_failed_requirements, get_requirements. by rewrite Hout.
Qed.

End Diagnostics.

Lemma bare_world_answers :
  answers (lib := plain_lib) 3 ["perseustest"; "nmux"] bare_world [false; false]
    (snd (has_requirement (lib := plain_lib) 3 "nmux"
            (snd (has_requirement (lib := plain_lib) 3 "perseustest" bare_world)))).
Proof.
  apply answers_cons
    with (w1 := snd (has_requirement (lib := plain_lib) 3 "perseustest" bare_world));
    [vm_compute; reflexivity |].
  eapply answers_cons; [vm_compute; reflexivity | apply answers_nil].
Defined.

(** X6 on [perseussdr], on the host with nothing installed: both
    requirements are asked about and both are reported. *)
Lemma get_failed_requirements_spec_witness :
  dict_get features "perseussdr" = Some ["perseustest"; "nmux"]
  /\ get_failed_requirements (lib := plain_lib) 3 "perseussdr" bare_world
     = (Ok (failed ["perseustest"; "nmux"] [false; false]),
        snd (has_requirement (lib := plain_lib) 3 "nmux"
               (snd (has_requirement (lib := plain_lib) 3 "perseustest" bare_world))))
  /\ calls (trace (snd (has_requirement (lib := plain_lib) 3 "nmux"
                          (snd (has_requirement (lib := plain_lib) 3 "perseustest"
                                  bare_world)))))
     = (calls (trace bare_world) ++ ["perseustest"; "nmux"])%list.
Proof.
  split; [reflexivity |].
  exact (get_failed_requirements_spec (lib := plain_lib) 3 "perseussdr"
           ["perseustest"; "nmux"] bare_world [false; false] _ eq_refl bare_world_answers).
Defined.

(** X7 on [perseussdr], on the host where every command runs. *)
Lemma is_available_iff_none_failed_witness :
  dict_get features "perseussdr" = Some ["perseustest"; "nmux"]
  /\ (fst (is_available (lib := plain_lib) 3 "perseussdr" ready_world) = Ok true
      <-> fst (get_failed_requirements (lib := plain_lib) 3 "perseussdr" ready_world)
          = Ok []).
Proof.
  split; [reflexivity |].
  exact (is_available_iff_none_failed (lib := plain_lib) 3 "perseussdr"
           ["perseustest"; "nmux"] ready_world eq_refl).
Defined.

(** X8 on the name [foo]. *)
Lemma unknown_feature_raises_witness :
  dict_get features "foo" = None
  /\ is_available (lib := plain_lib) 3 "foo" bare_world
     = (Raise (UnknownFeatureException
                 ("Feature " +:+ dquote +:+ "foo" +:+ dquote +:+ " is not known.")),
        bare_world)
  /\ get_failed_requirements (lib := plain_lib) 3 "foo" bare_world
     = (Raise (UnknownFeatureException
                 ("Feature " +:+ dquote +:+ "foo" +:+ dquote +:+ " is not known.")),
        bare_world).
Proof.
  split; [reflexivity |].
  exact (unknown_feature_raises (lib := plain_lib) 3 "foo" bare_world eq_refl).
Defined.

(** ** Reports *)

Lemma features_NoDup : NoDup (map fst features).
Proof. apply (bool_decide_unpack _). vm_compute. reflexivity. Qed.



Lemma dict_get_NoDup_In {A} (d : list (string * A)) key v :
  NoDup (map fst d) -> In (key, v) d -> dict_get d key = Some v.
Proof.
  induction d as [| [k a] d IH]; simpl; [intros _ [] |].
  intros [Hk Hd]%NoDup_cons [[= -> ->] | Hin].
  - by rewrite String.eqb_refl.
  - destruct (String.eqb_spec k key) as [-> | _]; [| by apply IH].
    exfalso. apply Hk. apply list_elem_of_In. apply in_map_iff. by exists (key, v).
Qed.

Lemma dict_set_fresh {A} (d : list (string * A)) key v :
  ~ In key (map fst d) -> dict_set d key v = (d ++ [(key, v)])%list.
Proof.
  induction d as [| [k a] d IH]; simpl; [reflexivity |].
  intros Hnot. destruct (String.eqb_spec k key) as [-> | _].
  - exfalso. apply Hnot. by left.
  - rewrite IH; [reflexivity |]. intros Hin. apply Hnot. by right.
Qed.

(** Over distinct names that are not in the dict yet, the comprehension is
    [f] run on the names in order, the results appended as items. *)
Lemma dict_comprehension_from_fresh {A} (f : string -> M A) names :
  NoDup names ->
  forall d w,
    (forall name, In name names -> ~ In name (map fst d)) ->
    dict_comprehension_from f d names w
    = match mapM (fun name => let! v := f name in ret (name, v)) names w with
      | (Ok items, w') => (Ok (d ++ items)%list, w')
      | (Raise e, w') => (Raise e, w')
      | (Unfinished, w') => (Unfinished, w')
      end.
Proof.
  induction 1 as [| name names Hname _ IH]; intros d w Hfresh; simpl.
  - by rewrite app_nil_r.
  - rewrite !bind_eq. destruct (f name w) as [[v | e |] w1]; try reflexivity.
    simpl. rewrite bind_eq, IH.
    + destruct (mapM _ names w1) as [[items | e |] w2]; try reflexivity.
      simpl. rewrite dict_set_fresh; [by rewrite <- app_assoc |].
      apply Hfresh. by left.
    + intros name' Hin'. rewrite dict_set_fresh; [| apply Hfresh; by left].
      rewrite map_app, in_app_iff. simpl. intros [Hd | [<- | []]].
      * apply (Hfresh name'); [by right | exact Hd].
      * apply Hname. by apply list_elem_of_In.
Qed.

Lemma dict_comprehension_NoDup {A} (f : string -> M A) names w :
  NoDup names ->
  dict_comprehension f names w
  = mapM (fun name => let! v := f name in ret (name, v)) names w.
Proof.
  intros Hnd. unfold dict_comprehension.
  rewrite (dict_comprehension_from_fresh f names Hnd [] w); [| by intros ? _ []].
  by destruct (mapM _ names w) as [[items | e |] w'].
Qed.


Lemma mapM_ext_In {A B} (g h : A -> M B) l :
  (forall a w, In a l -> g a w = h a w) -> forall w, mapM g l w = mapM h l w.
Proof.
  induction l as [| a l IH]; intros Hext w; [reflexivity |].
  simpl. rewrite !bind_eq, Hext by (by left).
  destruct (h a w) as [[b | e |] w1]; try reflexivity.
  rewrite !bind_eq, IH; [reflexivity |]. intros a' w' Hin. apply Hext. by right.
Qed.

Lemma mapM_map {A B C} (g : B -> M C) (p : A -> B) l w :
  mapM g (map p l) w = mapM (fun a => g (p a)) l w.
Proof.
  revert w. induction l as [| a l IH]; intros w; [reflexivity |].
  simpl. rewrite !bind_eq. destruct (g (p a) w) as [[c | e |] w1]; try reflexivity.
  by rewrite !bind_eq, IH.
Qed.

Section ReportTheorems.

Context {lib : PyLib}.
Variable fuel : nat.
Variable inspect_getdoc : option string -> option string.

(** X9: [feature_availability] evaluates [has_requirements] on the
    requirement list of every catalog entry, in the catalog's order, and
    returns the feature names paired with the results, in that order; it
    never takes the unknown-feature path. *)
Theorem feature_availability_catalog w :
  feature_availability fuel w
  = mapM (fun entry =>
            let! available := has_requirements fuel (snd entry) in
            ret (fst entry, available))
         features w.
Proof.
  unfold feature_availability.
  rewrite (dict_comprehension_NoDup _ _ _ features_NoDup), mapM_map.
  apply mapM_ext_In. intros [name reqs] w1 Hin. simpl.
  by rewrite !bind_eq,
    (is_available_known fuel name reqs w1 (dict_get_NoDup_In _ _ _ features_NoDup Hin)).
Qed.



End ReportTheorems.

(** ** The version line of a connector *)

Lemma append_cons c s r : String c s +:+ r = String c (s +:+ r).
Proof. reflexivity. Qed.

Lemma append_nil_l r : EmptyString +:+ r = r.
Proof. reflexivity. Qed.

Lemma append_empty_r s : s +:+ EmptyString = s.
Proof.
  induction s as [| c s IH]; [reflexivity |]. by rewrite append_cons, IH.
Qed.

Lemma append_assoc s1 s2 s3 : (s1 +:+ s2) +:+ s3 = s1 +:+ s2 +:+ s3.
Proof.
  induction s1 as [| c s IH]; [reflexivity |]. by rewrite !append_cons, IH.
Qed.

Lemma strip_prefix_append p r : strip_prefix p (p +:+ r) = Some r.
Proof.
  induction p as [| c p IH].
  - rewrite append_nil_l. by destruct r.
  - rewrite append_cons. simpl. by rewrite Ascii.eqb_refl.
Qed.

Lemma strip_prefix_Some p s r : strip_prefix p s = Some r -> s = p +:+ r.
Proof.
  revert s. induction p as [| c p IH]; intros s; simpl.
  - rewrite append_nil_l. destruct s; by intros [= <-].
  - destruct s as [| d s]; [discriminate |].
    destruct (Ascii.eqb_spec c d) as [-> | _]; [| discriminate].
    intros Hs. by rewrite (IH _ Hs), append_cons.
Qed.

Lemma until_newline_no_feed v tail :
  has_line_feed v = false ->
  (tail = EmptyString \/ exists tail', tail = String "010"%char tail') ->
  until_newline (v +:+ tail) = (v, tail).
Proof.
  intros Hv Htail. induction v as [| c v IH].
  - rewrite append_nil_l. by destruct Htail as [-> | (tail' & ->)].
  - simpl in Hv. apply orb_false_iff in Hv as [Hc Hv].
    rewrite append_cons. simpl. by rewrite Hc, (IH Hv).
Qed.

Lemma until_newline_split s v tail :
  until_newline s = (v, tail) ->
  s = v +:+ tail
  /\ has_line_feed v = false
  /\ (tail = EmptyString \/ exists tail', tail = String "010"%char tail').
Proof.
  revert v tail. induction s as [| c s IH]; intros v tail; simpl.
  - intros [= <- <-]. split; [reflexivity |]. split; [reflexivity | by left].
  - destruct (Ascii.eqb_spec c "010"%char) as [-> | Hc].
    + intros [= <- <-]. split; [reflexivity |]. split; [reflexivity |].
      right. by eexists.
    + destruct (until_newline s) as [a b]. intros [= <- <-].
      destruct (IH a b eq_refl) as (-> & Ha & Hb).
      split; [by rewrite append_cons |]. split; [| exact Hb]. simpl. rewrite Ha.
      by destruct (Ascii.eqb_spec c "010"%char).
Qed.

Lemma re_match_line_feed_ended literal v :
  has_line_feed v = false ->
  re_match_literal_rest literal (literal +:+ v +:+ newline) = Some v.
Proof.
  intros Hv. unfold re_match_literal_rest. rewrite strip_prefix_append.
  rewrite (until_newline_no_feed v newline Hv); [reflexivity |].
  right. by eexists.
Qed.

(** X11: the pattern of the version probes, a literal followed by one
    group up to the end of the line, matches a line exactly when the line
    is the literal followed by a text without line feed, optionally ended
    by one line feed; the group is that text. *)
Theorem re_match_literal_rest_iff literal line v :
  re_match_literal_rest literal line = Some v
  <-> has_line_feed v = false
      /\ (line = literal +:+ v \/ line = literal +:+ v +:+ newline).
Proof.
  unfold re_match_literal_rest. split.
  - destruct (strip_prefix literal line) as [rest |] eqn:Hp; [| discriminate].
    apply strip_prefix_Some in Hp. subst line.
    destruct (until_newline rest) as [group tail] eqn:Hu.
    destruct (until_newline_split _ _ _ Hu) as (-> & Hg & _).
    destruct (String.eqb_spec tail EmptyString) as [-> | _]; simpl.
    + intros [= <-]. split; [exact Hg |]. left.
      by rewrite append_empty_r.
    + destruct (String.eqb_spec tail newline) as [-> | _]; [| discriminate].
      intros [= <-]. split; [exact Hg | by right].
  - intros [Hv [-> | ->]].
    + rewrite strip_prefix_append, <- (append_empty_r v) at 1.
      rewrite (until_newline_no_feed v EmptyString Hv) by (by left). reflexivity.
    + by apply re_match_line_feed_ended.
Qed.

(** ** The probes that read their child's output *)

Section OutputProbes.

Context {lib : PyLib}.

Implicit Types (w : World) (command required driver : string) (process : Process).

Lemma check_connector_launched command required w process :
  popen_at (host w) (events (host w)) (connector_request command) = inr process ->
  fst (_check_connector command required w)
  = match bytes_decode (stdout_readline process) with
    | inl FileNotFoundError => Ok false
    | inl e => Raise e
    | inr line =>
        match re_match_literal_rest (command +:+ " version ") line with
        | None => Ok false
        | Some version =>
            match proc_wait process 0 1 with
            | None => Raise TimeoutExpired
            | Some _ =>
                match LooseVersion_ge version required with
                | inl FileNotFoundError => Ok false
                | inl e => Raise e
                | inr b => Ok b
                end
            end
        end
    end.
Proof.
  intros Hlaunch. unfold _check_connector.
  rewrite try_except_eq, bind_eq, subprocess_Popen_eq.
  fold (connector_request command). rewrite Hlaunch.
  rewrite bind_eq. destruct (bytes_decode _) as [e | line]; simpl; [by destruct e |].
  destruct (re_match_literal_rest _ _) as [version |]; [| reflexivity].
  rewrite bind_eq. unfold Popen_wait.
  destruct (proc_wait process 0 1); simpl; [| reflexivity].
  destruct (LooseVersion_ge _ _) as [e | b]; simpl; [by destruct e | reflexivity].
Qed.

(** X12: when the connector is launched, its first output line is
    [<command> version <v>] and it has exited within a second,
    [_check_connector] returns what comparing [v] with the required version
    gives; the exit code of the connector plays no part. *)
Theorem check_connector_version command required w process v rc b :
  popen_at (host w) (events (host w)) (connector_request command) = inr process ->
  bytes_decode (stdout_readline process)
  = inr (command +:+ " version " +:+ v +:+ newline) ->
  has_line_feed v = false ->
  proc_wait process 0 1 = Some rc ->
  LooseVersion_ge v required = inr b ->
  fst (_check_connector command required w) = Ok b.
Proof.
  intros Hlaunch Hline Hv Hwait Hge.
  rewrite (check_connector_launched _ _ _ _ Hlaunch), Hline.
  assert (Hm : re_match_literal_rest (command +:+ " version ")
                 (command +:+ " version " +:+ v +:+ newline) = Some v).
  { rewrite <- (re_match_line_feed_ended (command +:+ " version ") v Hv).
    by rewrite !append_assoc. }
  by rewrite Hm, Hwait, Hge.
Qed.

(** X13: [_check_connector] returns false, and does not raise, when the
    connector's executable is not found, and when the connector is
    launched but its first output line is not a version line; in the
    second case it does not wait for the process. *)
Theorem check_connector_degrades command required w :
  popen_at (host w) (events (host w)) (connector_request command) = inl FileNotFoundError
  \/ (exists process line,
        popen_at (host w) (events (host w)) (connector_request command) = inr process
        /\ bytes_decode (stdout_readline process) = inr line
        /\ re_match_literal_rest (command +:+ " version ") line = None) ->
  fst (_check_connector command required w) = Ok false.
Proof.
  intros [Hnf | (process & line & Hlaunch & Hline & Hno)].
  - unfold _check_connector.
    rewrite try_except_eq, bind_eq, subprocess_Popen_eq.
    fold (connector_request command). by rewrite Hnf.
  - by rewrite (check_connector_launched _ _ _ _ Hlaunch), Hline, Hno.
Qed.

Lemma decode_lines_Ok (lines decoded : list string) w :
  Forall2 (fun line s => bytes_decode line = inr s) lines decoded ->
  mapM (fun line => let! s := lift (bytes_decode line) in ret (str_strip s)) lines w
  = (Ok (map str_strip decoded), w).
Proof.
  induction 1 as [| line s lines decoded Hline _ IH]; [reflexivity |].
  simpl. rewrite !bind_eq, Hline. simpl. by rewrite bind_eq, IH.
Qed.

(** X14: when [soapy_connector --listdrivers] is launched, all of its
    output lines decode and it has exited within a second,
    [_has_soapy_driver] returns true if and only if the driver name equals
    one of the output lines after decoding and stripping. *)
Theorem has_soapy_driver_membership driver w process decoded rc :
  popen_at (host w) (events (host w)) listdrivers_request = inr process ->
  Forall2 (fun line s => bytes_decode line = inr s) (proc_stdout process) decoded ->
  proc_wait process 0 1 = Some rc ->
  exists b,
    fst (_has_soapy_driver driver w) = Ok b
    /\ (b = true <-> In driver (map str_strip decoded)).
Proof.
  intros Hlaunch Hdec Hwait. unfold _has_soapy_driver.
  rewrite try_except_eq, bind_eq, subprocess_Popen_eq.
  fold listdrivers_request. rewrite Hlaunch.
  rewrite bind_eq, (decode_lines_Ok _ _ _ Hdec), bind_eq.
  unfold Popen_wait. rewrite Hwait. simpl.
  eexists. split; [reflexivity |].
  rewrite existsb_exists. split.
  - intros (s & Hin & Heq). apply String.eqb_eq in Heq. by subst.
  - intros Hin. exists driver. split; [exact Hin | apply String.eqb_refl].
Qed.

End OutputProbes.


(** X12 on [rtl_connector]: version 0.7 is reported and the connector exits
    with code 1; the check still passes. *)
Lemma check_connector_version_witness :
  popen_at (host connector_world) (events (host connector_world))
    (connector_request "rtl_connector")
  = inr (prompt_process ["rtl_connector"; "--version"]
           ["rtl_connector version 0.7" +:+ newline] 1)
  /\ has_line_feed "0.7" = false
  /\ fst (_check_connector (lib := equal_lib) "rtl_connector" "0.7" connector_world)
     = Ok true.
Proof.
  split; [reflexivity |]. split; [reflexivity |].
  exact (check_connector_version (lib := equal_lib) "rtl_connector" "0.7" connector_world
           (prompt_process ["rtl_connector"; "--version"]
              ["rtl_connector version 0.7" +:+ newline] 1)
           "0.7" 1%Z true eq_refl eq_refl eq_refl eq_refl eq_refl).
Defined.

(** X13 on the host with nothing installed. *)
Lemma check_connector_degrades_witness :
  popen_at (host bare_world) (events (host bare_world)) (connector_request "rtl_connector")
  = inl FileNotFoundError
  /\ fst (_check_connector (lib := plain_lib) "rtl_connector" "0.7" bare_world) = Ok false.
Proof.
  split; [reflexivity |].
  exact (check_connector_degrades (lib := plain_lib) "rtl_connector" "0.7" bare_world
           (or_introl eq_refl)).
Defined.

Lemma soapy_lines_decode :
  Forall2 (fun line s => bytes_decode (PyLib := plain_lib) line = inr s)
          ["rtlsdr"; "sdrplay"] ["rtlsdr"; "sdrplay"].
Proof. repeat constructor. Defined.

(** X14 on the driver [sdrplay], listed second. *)
Lemma has_soapy_driver_membership_witness :
  popen_at (host soapy_world) (events (host soapy_world)) listdrivers_request
  = inr (prompt_process ["soapy_connector"; "--listdrivers"] ["rtlsdr"; "sdrplay"] 0)
  /\ exists b,
       fst (_has_soapy_driver (lib := plain_lib) "sdrplay" soapy_world) = Ok b
       /\ (b = true <-> In "sdrplay" (map (str_strip (PyLib := plain_lib))
                                        ["rtlsdr"; "sdrplay"])).
Proof.
  split; [reflexivity |].
  exact (has_soapy_driver_membership (lib := plain_lib) "sdrplay" soapy_world
           (prompt_process ["soapy_connector"; "--listdrivers"] ["rtlsdr"; "sdrplay"] 0)
           ["rtlsdr"; "sdrplay"] 0%Z eq_refl soapy_lines_decode eq_refl).
Defined.

(** ** More on [command_is_runnable] and the methods built on it *)

Section CommandProbes.

Context {lib : PyLib}.
Variable fuel : nat.

Implicit Types (w : World) (command : string) (cmd : list string).

(** X15: once the command line is split, the only exceptions that leave
    [command_is_runnable] are those the launch raised, except
    [FileNotFoundError]: the wait loop raises nothing, a timeout included. *)
Theorem command_is_runnable_raises command expected cmd w e :
  shlex_split command = inr cmd ->
  fst (command_is_runnable fuel command expected w) = Raise e
  <-> probe_launch cmd w = inl e /\ e <> FileNotFoundError.
Proof.
  intros Hsplit. rewrite (command_is_runnable_launch fuel _ _ _ _ Hsplit).
  destruct (probe_launch cmd w) as [e' | process].
  - split.
    + destruct e'; simpl; intros [= <-]; by split.
    + intros [[= ->] Hne]. by destruct e.
  - pose proof (wait_loop_no_raise fuel command process 0 (launched cmd w)) as Hno.
    destruct (wait_loop _ _ _ _ _) as [[rc | e' |] w']; simpl in *.
    + split; [discriminate | by intros [? _]].
    + by destruct (Hno e').
    + split; [discriminate | by intros [? _]].
Qed.

(** X16: with no expected exit code, a process that had to be killed by
    the timeout protocol still counts as runnable: when the launched
    process exits, after any number of waits that timed out, with a
    negative code (the signal that ended it), [command_is_runnable]
    returns true. *)
Theorem command_is_runnable_killed command cmd w process k rc :
  shlex_split command = inr cmd ->
  probe_launch cmd w = inr process ->
  first_exit process k rc ->
  (rc < 0)%Z ->
  k < fuel ->
  fst (command_is_runnable fuel command None w) = Ok true.
Proof.
  intros Hsplit Hlaunch [Hexit Hbefore] Hrc Hk.
  rewrite (command_is_runnable_launch fuel _ _ _ _ Hsplit), Hlaunch.
  rewrite (wait_loop_exits k fuel command process 0 rc); [| done | done | done].
  simpl. f_equal. apply negb_true_iff, Z.eqb_neq. lia.
Qed.

Lemma command_is_runnable_spawns command expected cmd w :
  shlex_split command = inr cmd ->
  spawns (trace (snd (command_is_runnable fuel command expected w)))
  = (spawns (trace w) ++ [probe_request cmd w])%list.
Proof.
  intros Hsplit. rewrite (command_is_runnable_launch fuel _ _ _ _ Hsplit).
  assert (Hl : spawns (trace (launched cmd w))
               = (spawns (trace w) ++ [probe_request cmd w])%list).
  { unfold launched. simpl. by rewrite spawns_app. }
  destruct (probe_launch cmd w) as [e | process]; [by destruct e |].
  pose proof (wait_loop_spawns fuel command process 0 (launched cmd w)) as Hs.
  pose proof (wait_loop_no_raise fuel command process 0 (launched cmd w)) as Hr.
  destruct (wait_loop _ _ _ _ _) as [[rc | e |] w']; simpl in *;
    [congruence | by destruct (Hr e) | congruence].
Qed.

(** X17: [has_wsjtx] probes both [jt9] and [wsprd]: when [jt9] is not
    found, [wsprd] is launched all the same, and the method does not
    return true. *)
Theorem has_wsjtx_probes_both cmd1 cmd2 w :
  shlex_split "jt9" = inr cmd1 ->
  shlex_split "wsprd" = inr cmd2 ->
  probe_launch cmd1 w = inl FileNotFoundError ->
  spawns (trace (snd (has_wsjtx fuel w)))
  = (spawns (trace w) ++ [probe_request cmd1 w; probe_request cmd2 (launched cmd1 w)])%list
  /\ fst (has_wsjtx fuel w) <> Ok true.
Proof.
  intros H1 H2 Hnf. unfold has_wsjtx. rewrite bind_eq.
  assert (Hfirst : command_is_runnable fuel "jt9" None w = (Ok false, launched cmd1 w)).
  { by rewrite (command_is_runnable_launch fuel _ _ _ _ H1), Hnf. }
  rewrite Hfirst, bind_eq.
  pose proof (command_is_runnable_spawns "wsprd" None cmd2 (launched cmd1 w) H2) as Hs.
  destruct (command_is_runnable fuel "wsprd" None (launched cmd1 w)) as [[r2 | e |] w2];
    simpl in *; (split; [| discriminate]); rewrite Hs;
    unfold launched; simpl; by rewrite spawns_app, <- app_assoc.
Qed.

End CommandProbes.

(** ** Methods that import modules or ask a service *)

Section ImportProbes.

Context {lib : PyLib}.

Implicit Types (w : World).

Lemma import_from_eq module name w :
  import_from module name w
  = match import_at (host w) (events (host w)) module name with
    | Some s => (Ok s, set_host (tick (host w)) w)
    | None => (Raise ImportError, set_host (tick (host w)) w)
    end.
Proof.
  unfold import_from. rewrite bind_eq. unfold ask. simpl.
  by destruct (import_at _ _ _ _).
Qed.

(** X18: the module checks ([has_csdr], [has_digiham], [has_csdreti])
    return false, without raising, when the module or either of the two
    version names cannot be imported. *)
Theorem has_module_versions_missing module name1 name2 required w :
  import_at (host w) (events (host w)) module name1 = None
  \/ import_at (host w) (S (events (host w))) module name2 = None ->
  fst (has_module_versions module name1 name2 required w) = Ok false.
Proof.
  intros Hmissing. unfold has_module_versions.
  rewrite try_except_eq, bind_eq, import_from_eq.
  destruct (import_at (host w) (events (host w)) module name1) as [v1 |] eqn:H1;
    [| reflexivity].
  destruct Hmissing as [? | H2]; [discriminate |].
  rewrite bind_eq, import_from_eq. simpl. by rewrite H2.
Qed.

(** X19: when both version names import, the module checks return the
    conjunction of the two comparisons with the required version; the
    second version is not compared when the first is too old. *)
Theorem has_module_versions_present module name1 name2 required w v1 v2 b1 b2 :
  import_at (host w) (events (host w)) module name1 = Some v1 ->
  import_at (host w) (S (events (host w))) module name2 = Some v2 ->
  LooseVersion_ge v1 required = inr b1 ->
  (b1 = true -> LooseVersion_ge v2 required = inr b2) ->
  fst (has_module_versions module name1 name2 required w) = Ok (b1 && b2).
Proof.
  intros H1 H2 Hge1 Hge2. unfold has_module_versions.
  rewrite try_except_eq, bind_eq, import_from_eq, H1.
  rewrite bind_eq, import_from_eq. simpl. rewrite H2.
  rewrite bind_eq, Hge1. simpl. destruct b1; [| reflexivity].
  by rewrite (Hge2 eq_refl).
Qed.

(** X20: [has_codecserver_ambe] never raises [ImportError],
    [ConnectionError] or [RuntimeError]: each of them gives false.  When
    the codec server breaks with a [RuntimeError], one error is logged. *)
Theorem has_codecserver_ambe_degrades w :
  fst (has_codecserver_ambe w) <> Raise ImportError
  /\ fst (has_codecserver_ambe w) <> Raise ConnectionError
  /\ fst (has_codecserver_ambe w) <> Raise RuntimeError
  /\ (forall server,
        server = match config_at (host w) (events (host w)) !! "digital_voice_codecserver" with
                 | Some s => s
                 | None => EmptyString
                 end ->
        is_Some (import_at (host w) (S (events (host w))) "digiham.modules" "MbeSynthesizer") ->
        hasAmbe_at (host w) (S (S (events (host w)))) server = inl RuntimeError ->
        fst (has_codecserver_ambe w) = Ok false
        /\ logged ERROR (trace (snd (has_codecserver_ambe w)))
           = (logged ERROR (trace w)
              ++ ["Codecserver error while checking for AMBE support:"])%list).
Proof.
  unfold has_codecserver_ambe. rewrite bind_eq. unfold Config_get, ask. simpl.
  rewrite try_except_eq, bind_eq, import_from_eq. simpl.
  destruct (import_at (host w) (S (events (host w))) _ _) as [m |] eqn:Himp; simpl.
  2: { split; [discriminate |]. split; [discriminate |]. split; [discriminate |].
       intros srv _ [? ?]. discriminate. }
  unfold MbeSynthesizer_hasAmbe. rewrite bind_eq. unfold ask. simpl.
  destruct (hasAmbe_at (host w) (S (S (events (host w)))) _) as [e | b] eqn:Hambe; simpl.
  - destruct e; simpl;
      (split; [discriminate |]; split; [discriminate |]; split; [discriminate |]);
      intros srv -> _ Hrt; rewrite Hrt in Hambe; try discriminate.
    split; [reflexivity |]. unfold logged. simpl. by rewrite omap_app.
  - split; [discriminate |]. split; [discriminate |]. split; [discriminate |].
    intros srv -> _ Hrt. rewrite Hrt in Hambe. discriminate.
Qed.

End ImportProbes.

(** X15 on [nmux --help]. *)
Lemma command_is_runnable_raises_witness :
  shlex_split (PyLib := plain_lib) "nmux --help" = inr ["nmux"; "--help"]
  /\ (fst (command_is_runnable (lib := plain_lib) 3 "nmux --help" None ready_world)
      = Raise TypeError
      <-> probe_launch ["nmux"; "--help"] ready_world = inl TypeError
          /\ TypeError <> FileNotFoundError).
Proof.
  split; [reflexivity |].
  exact (command_is_runnable_raises (lib := plain_lib) 3 "nmux --help" None
           ["nmux"; "--help"] ready_world TypeError eq_refl).
Defined.

Lemma killed_process_first_exit args : first_exit (killed_process args) 2 (-9)%Z.
Proof.
  split; [reflexivity |]. intros [| [| j]] Hj; [reflexivity | reflexivity | lia].
Defined.

(** X16 on [dream --help], on a host where the command dies of the second
    kill. *)
Lemma command_is_runnable_killed_witness :
  shlex_split (PyLib := plain_lib) "dream --help" = inr ["dream"; "--help"]
  /\ probe_launch ["dream"; "--help"] hanging_world
     = inr (killed_process ["dream"; "--help"])
  /\ first_exit (killed_process ["dream"; "--help"]) 2 (-9)%Z
  /\ (-9 < 0)%Z
  /\ 2 < 3
  /\ fst (command_is_runnable (lib := plain_lib) 3 "dream --help" None hanging_world)
     = Ok true.
Proof.
  split; [reflexivity |]. split; [reflexivity |].
  split; [apply killed_process_first_exit |]. split; [lia |]. split; [lia |].
  apply (command_is_runnable_killed (lib := plain_lib) 3 "dream --help"
           ["dream"; "--help"] hanging_world (killed_process ["dream"; "--help"])
           2 (-9)%Z eq_refl eq_refl (killed_process_first_exit _)); lia.
Defined.

(** X17 on the host with nothing installed. *)
Lemma has_wsjtx_probes_both_witness :
  shlex_split (PyLib := plain_lib) "jt9" = inr ["jt9"]
  /\ shlex_split (PyLib := plain_lib) "wsprd" = inr ["wsprd"]
  /\ probe_launch ["jt9"] bare_world = inl FileNotFoundError
  /\ spawns (trace (snd (has_wsjtx (lib := plain_lib) 3 bare_world)))
     = (spawns (trace bare_world)
        ++ [probe_request ["jt9"] bare_world;
            probe_request ["wsprd"] (launched ["jt9"] bare_world)])%list
  /\ fst (has_wsjtx (lib := plain_lib) 3 bare_world) <> Ok true.
Proof.
  split; [reflexivity |]. split; [reflexivity |]. split; [reflexivity |].
  exact (has_wsjtx_probes_both (lib := plain_lib) 3 ["jt9"] ["wsprd"] bare_world
           eq_refl eq_refl eq_refl).
Defined.

(** X18 on [has_csdr]'s module, on the host with nothing installed. *)
Lemma has_module_versions_missing_witness :
  import_at (host bare_world) (events (host bare_world)) "pycsdr.modules" "csdr_version"
  = None
  /\ fst (has_csdr (lib := plain_lib) bare_world) = Ok false.
Proof.
  split; [reflexivity |].
  exact (has_module_versions_missing (lib := plain_lib) "pycsdr.modules" "csdr_version"
           "version" "0.19.0" bare_world (or_introl eq_refl)).
Defined.

(** X19 on [has_digiham], on a host where both versions are 0.6. *)
Lemma has_module_versions_present_witness :
  import_at (host broken_codecserver_world) (events (host broken_codecserver_world))
    "digiham.modules" "digiham_version" = Some "0.6"
  /\ import_at (host broken_codecserver_world) (S (events (host broken_codecserver_world)))
       "digiham.modules" "version" = Some "0.6"
  /\ LooseVersion_ge (PyLib := equal_lib) "0.6" "0.6" = inr true
  /\ fst (has_digiham (lib := equal_lib) broken_codecserver_world) = Ok (true && true).
Proof.
  split; [reflexivity |]. split; [reflexivity |]. split; [reflexivity |].
  exact (has_module_versions_present (lib := equal_lib) "digiham.modules" "digiham_version"
           "version" "0.6" broken_codecserver_world "0.6" "0.6" true true
           eq_refl eq_refl eq_refl (fun _ => eq_refl)).
Defined.

(** X20 on a host whose codec server breaks. *)
Lemma has_codecserver_ambe_degrades_witness :
  hasAmbe_at (host broken_codecserver_world)
    (S (S (events (host broken_codecserver_world)))) EmptyString = inl RuntimeError
  /\ fst (has_codecserver_ambe broken_codecserver_world) = Ok false
  /\ logged ERROR (trace (snd (has_codecserver_ambe broken_codecserver_world)))
     = (logged ERROR (trace broken_codecserver_world)
        ++ ["Codecserver error while checking for AMBE support:"])%list.
Proof.
  split; [reflexivity |].
  destruct (has_codecserver_ambe_degrades broken_codecserver_world) as (_ & _ & _ & Hrt).
  apply (Hrt EmptyString eq_refl); [by eexists | reflexivity].
Defined.
